(** * VisualizeLog: the report pipeline of SystemResourceLogger

    A shallow embedding of [src/VisualizeLog.py] ([generate_report] with its
    two local helpers [extract_top_data] and [filter_top_consumers]).

    The script is a straight-line batch job over pandas tables.  Its effects
    are the lines it prints and the one HTML file it may write; both are
    threaded through a small state-and-exception monad [M].  The operations
    of Python and pandas whose results the script does not determine (text to
    float, text to timestamp, the float sum of a group, the order in which a
    sort leaves equal keys) are the fields of the interface [Library]; every
    general theorem holds for each implementation of it, and [RefLib] is a
    small exact implementation on which the pipeline is run on concrete
    directories. *)

From Stdlib Require Import List String Ascii ZArith QArith Qround Bool Lia.
From Stdlib Require Import Permutation Sorted FinFun DecimalString.
Import ListNotations.
Open Scope string_scope.
Open Scope Z_scope.
Open Scope list_scope.

Set Implicit Arguments.

(** ** Cells, timestamps and the library interface *)

(** A cell of a table read by [pd.read_csv]: missing ([NaN]), a number, or
    text (an [object] column). *)
Inductive cell (V : Type) : Type :=
| CNaN
| CNum (v : V)
| CStr (s : string).
Arguments CNaN {V}.
Arguments CNum {V} v.
Arguments CStr {V} s.

(** A value of a [datetime64] column: [NaT] or nanoseconds since the epoch. *)
Inductive datetime : Type :=
| NaT
| At (ns : Z).

Definition total_leb {A : Type} (le : A -> A -> bool) : Prop :=
  forall a b, le a b = true \/ le b a = true.

Definition trans_leb {A : Type} (le : A -> A -> bool) : Prop :=
  forall a b c, le a b = true -> le b c = true -> le a c = true.

(** The type of float64 values: what a numeric cell holds and what [float]
    returns. *)
Class Values : Type := {
  V : Type
}.

(** What the script takes from Python and pandas without fixing it itself.
    [vle] is the order that [max] and [sort_values] follow on float64
    values, a total preorder (a missing value, which [max] skips and a
    descending sort puts last, is lowest); [vsum] is the [sum] aggregate
    over the values of one group, in row order; [float_of_str] is
    [float(s)] on text ([None] when it raises [ValueError]); [str_of_num]
    is [str(x)] on a number; [to_datetime] is [pd.to_datetime] on a column
    ([None] when it raises); [sort_values] is the library sort, known only
    to return an ordered rearrangement of its input, whatever it does with
    equal keys. *)
Class Library {Vs : Values} : Type := {
  vle : V -> V -> bool;
  vle_total : total_leb vle;
  vle_trans : trans_leb vle;
  vsum : list V -> V;
  float_of_str : string -> option V;
  str_of_num : V -> string;
  to_datetime : list (cell V) -> option (list datetime);
  to_datetime_length :
    forall col ts, to_datetime col = Some ts -> List.length ts = List.length col;
  sort_values : forall A : Type, (A -> A -> bool) -> list A -> list A;
  sort_values_perm :
    forall (A : Type) (le : A -> A -> bool) (l : list A),
      Permutation (sort_values le l) l;
  sort_values_sorted :
    forall (A : Type) (le : A -> A -> bool) (l : list A),
      total_leb le -> trans_leb le ->
      StronglySorted (fun a b => le a b = true) (sort_values le l)
}.

(** ** Python lists *)

(** [list.sort()] on file names: insertion into an ordered list. *)
Fixpoint insert_sorted {A : Type} (le : A -> A -> bool) (x : A) (l : list A) : list A :=
  match l with
  | [] => [x]
  | y :: l' => if le x y then x :: l else y :: insert_sorted le x l'
  end.

Fixpoint isort {A : Type} (le : A -> A -> bool) (l : list A) : list A :=
  match l with
  | [] => []
  | x :: l' => insert_sorted le x (isort le l')
  end.

Definition is_nil {A : Type} (l : list A) : bool :=
  match l with
  | [] => true
  | _ :: _ => false
  end.

(** [x in xs] for strings. *)
Definition mem (x : string) (xs : list string) : bool :=
  existsb (String.eqb x) xs.

(** Position of the first occurrence of [x]. *)
Fixpoint index_of (x : string) (xs : list string) : option nat :=
  match xs with
  | [] => None
  | y :: xs' =>
      if String.eqb x y then Some O
      else match index_of x xs' with
           | Some i => Some (S i)
           | None => None
           end
  end.

(** [Series.head(n)]: the first [n] entries, or all but the last [-n] for a
    negative [n]. *)
Definition head {A : Type} (n : Z) (l : list A) : list A :=
  if 0 <=? n then firstn (Z.to_nat n) l
  else firstn (List.length l - Z.to_nat (- n)) l.

(** ** Exceptions, effects and the monad *)

Inductive exn : Type :=
| KeyError (key : string)
| ValueError (what : string).

Inductive res (A : Type) : Type :=
| Ok (a : A)
| Raise (e : exn).
Arguments Ok {A} a.
Arguments Raise {A} e.

Definition res_bind {A B : Type} (r : res A) (k : A -> res B) : res B :=
  match r with
  | Ok a => k a
  | Raise e => Raise e
  end.

Notation "'let*' x ':=' r 'in' k" := (res_bind r (fun x => k))
  (at level 10, x name, r at level 100, k at level 200).

(** A line on the console.  [Say] is a literal line; the other three are the
    f-strings whose text depends on [repr], on an exception's message or on
    [os.path.abspath]. *)
Inductive message : Type :=
| Say (text : string)
| FoundLogFiles (log_files : list string)
| ErrorReading (f : string) (e : string)
| CreatedReport (output_file : string).

Section Pipeline.
Context {Vs : Values} {L : Library}.

Local Abbreviation cell := (cell V).

(** One [go.Scatter] added to the figure, with the subplot row it went to. *)
Record trace : Type := {
  t_row : nat;
  t_name : string;
  t_x : list datetime;
  t_y : list cell
}.

Definition figure : Type := list trace.

(** What a run leaves behind: the printed lines, oldest first, and the file
    written by [fig.write_html], if any. *)
Record effects : Type := {
  console : list message;
  written : option (string * figure)
}.

Definition M (A : Type) : Type := effects -> res A * effects.

Definition ret {A : Type} (a : A) : M A := fun fx => (Ok a, fx).

Definition bind {A B : Type} (m : M A) (k : A -> M B) : M B :=
  fun fx =>
    match m fx with
    | (Ok a, fx') => k a fx'
    | (Raise e, fx') => (Raise e, fx')
    end.

Definition lift {A : Type} (r : res A) : M A := fun fx => (r, fx).

Definition print (m : message) : M unit :=
  fun fx => (Ok tt, {| console := console fx ++ [m]; written := written fx |}).

Definition write_html (output_file : string) (fig : figure) : M unit :=
  fun fx => (Ok tt, {| console := console fx; written := Some (output_file, fig) |}).

Notation "x <- m ;; k" := (bind m (fun x => k))
  (at level 61, m at next level, right associativity).
Notation "m ;;; k" := (bind m (fun _ => k))
  (at level 61, right associativity).

(** ** Tables *)

(** A table as [pd.read_csv] returns it: the header and the rows, each row
    positional against the header (a short row is missing its last cells). *)
Record DataFrame : Type := {
  columns : list string;
  data : list (list cell)
}.

Inductive read_result : Type :=
| ReadError (e : string)
| ReadOk (df : DataFrame).

(** The working directory as the script sees it: what
    [glob.glob('*_log.csv')] returns and what [pd.read_csv] does on a name. *)
Record Directory : Type := {
  glob : list string;
  read_csv : string -> read_result
}.

Definition has_column (c : string) (df : DataFrame) : bool :=
  mem c (columns df).

Definition cell_at (cols : list string) (r : list cell) (c : string) : cell :=
  match index_of c cols with
  | Some i => nth i r CNaN
  | None => CNaN
  end.

(** *** Lines 21-36: the loading loop *)

Definition skip_message (f : string) : message :=
  Say ("Skipping " ++ f ++ ": Old format (missing NonPagedPoolMB)").

Fixpoint load_all (read : string -> read_result) (log_files : list string)
    (all_dfs : list DataFrame) : M (list DataFrame) :=
  match log_files with
  | [] => ret all_dfs
  | f :: rest =>
      all_dfs' <-
        match read f with
        | ReadOk df =>
            if has_column "NonPagedPoolMB" df then ret (all_dfs ++ [df])
            else print (skip_message f) ;;; ret all_dfs
        | ReadError e => print (ErrorReading f e) ;;; ret all_dfs
        end ;;
      load_all read rest all_dfs'
  end.

(** *** Lines 38-42: concatenate, coerce the timestamps, sort *)

(** [pd.concat(all_dfs, ignore_index=True)]: the columns are the union of the
    headers in order of first appearance, the rows follow each other, and a
    row has [NaN] in the columns its own file lacks. *)
Definition add_columns (acc cols : list string) : list string :=
  fold_left (fun a c => if mem c a then a else a ++ [c]) cols acc.

Definition union_columns (dfs : list DataFrame) : list string :=
  fold_left (fun acc df => add_columns acc (columns df)) dfs [].

Definition reindex (cols : list string) (df : DataFrame) : list (list cell) :=
  map (fun r => map (cell_at (columns df) r) cols) (data df).

Definition concat (dfs : list DataFrame) : DataFrame :=
  {| columns := union_columns dfs;
     data := flat_map (reindex (union_columns dfs)) dfs |}.

(** A row of [df_main] once its [Timestamp] column holds datetimes. *)
Record MainRow : Type := {
  row_Timestamp : datetime;
  row_cells : list cell
}.

Record MainFrame : Type := {
  main_columns : list string;
  main_rows : list MainRow
}.

(** [df[c]]: the column, or [KeyError] when the table has no such column. *)
Definition get_column (df : DataFrame) (c : string) : res (list cell) :=
  if has_column c df then Ok (map (fun r => cell_at (columns df) r c) (data df))
  else Raise (KeyError c).

(** Ascending order of [sort_values] on datetimes, [NaT] last. *)
Definition dt_leb (a b : datetime) : bool :=
  match a, b with
  | _, NaT => true
  | NaT, At _ => false
  | At x, At y => x <=? y
  end.

(** Lines 41-42.  A column that [pd.to_datetime] rejects is recorded as
    [ValueError], the class pandas raises for text that is no date. *)
Definition coerce_and_sort (df : DataFrame) : res MainFrame :=
  let* col := get_column df "Timestamp" in
    match to_datetime col with
    | None => Raise (ValueError "to_datetime")
    | Some ts =>
        let rows := map (fun p => {| row_Timestamp := fst p; row_cells := snd p |})
                        (combine ts (data df)) in
        Ok {| main_columns := columns df;
              main_rows :=
                sort_values (fun a b => dt_leb (row_Timestamp a) (row_Timestamp b))
                            rows |}
    end.

(** *** Lines 47-65: [extract_top_data] *)

(** A cell for which [pd.notna] holds. *)
Inductive scalar : Type :=
| SNum (v : V)
| SStr (s : string).

Definition present (c : cell) : option scalar :=
  match c with
  | CNaN => None
  | CNum v => Some (SNum v)
  | CStr s => Some (SStr s)
  end.

(** [float(x)]: a number is itself, text is parsed and may raise. *)
Definition py_float (x : scalar) : res V :=
  match x with
  | SNum v => Ok v
  | SStr s =>
      match float_of_str s with
      | Some v => Ok v
      | None => Raise (ValueError "could not convert string to float")
      end
  end.

(** [str(x)]. *)
Definition py_str (x : scalar) : string :=
  match x with
  | SNum v => str_of_num v
  | SStr s => s
  end.

(** One row of a long table: the dict appended at lines 60-64. *)
Record LongRow : Type := {
  Timestamp : datetime;
  ProcessName : string;
  Value : V
}.

(** [f'{prefix}{i}_{suffix}'] *)
Definition slot_column (prefix : string) (i : nat) (suffix : string) : string :=
  prefix ++ NilZero.string_of_uint (Nat.to_uint i) ++ "_" ++ suffix.

(** A [for] loop whose body may raise, over the loop's accumulated state. *)
Fixpoint for_each {X S : Type} (xs : list X) (s : S) (body : S -> X -> res S) : res S :=
  match xs with
  | [] => Ok s
  | x :: xs' => let* s' := body s x in for_each xs' s' body
  end.

(** The body of the inner loop (lines 52-64) on slot [i] of [row]. *)
Definition extract_slot (cols : list string) (prefix_name prefix_val val_col_name : string)
    (row : MainRow) (data : list LongRow) (i : nat) : res (list LongRow) :=
  let name_col := slot_column prefix_name i "Name" in
  let val_col := slot_column prefix_val i val_col_name in
  if mem name_col cols && mem val_col cols then
    match present (cell_at cols (row_cells row) name_col),
          present (cell_at cols (row_cells row) val_col) with
    | Some p_name, Some p_val =>
        let* v := py_float p_val in
        Ok (data ++ [{| Timestamp := row_Timestamp row;
                        ProcessName := py_str p_name;
                        Value := v |}])
    | _, _ => Ok data
    end
  else Ok data.

Definition extract_top_data (df_main : MainFrame)
    (prefix_name prefix_val : string) (count : nat) (val_col_name : string)
    : res (list LongRow) :=
  for_each (main_rows df_main) [] (fun data row =>
    for_each (seq 1 count) data
      (extract_slot (main_columns df_main) prefix_name prefix_val val_col_name row)).

(** *** Lines 70 and 74: [groupby(['Timestamp', 'ProcessName']).sum()] *)

Definition key : Type := Z * string.

Definition key_eq_dec (a b : key) : {a = b} + {a <> b}.
Proof. decide equality; [apply string_dec | apply Z.eq_dec]. Defined.

Definition key_leb (a b : key) : bool :=
  if fst a <? fst b then true
  else if fst a =? fst b then String.leb (snd a) (snd b)
  else false.

(** The group a row falls in; a row whose timestamp is [NaT] falls in none
    ([dropna=True]). *)
Definition row_key (r : LongRow) : option key :=
  match Timestamp r with
  | NaT => None
  | At t => Some (t, ProcessName r)
  end.

Definition has_key (k : key) (r : LongRow) : bool :=
  match row_key r with
  | Some k' => if key_eq_dec k k' then true else false
  | None => false
  end.

Definition keys_of (df : list LongRow) : list key :=
  flat_map (fun r => match row_key r with Some k => [k] | None => [] end) df.

(** [pd.DataFrame([])] has no columns, so grouping it by column names raises
    [KeyError]; otherwise there is one output row per distinct key, keys in
    ascending order, holding the sum of the key's values. *)
Definition groupby_sum (df : list LongRow) : res (list LongRow) :=
  if is_nil df then Raise (KeyError "Timestamp")
  else
    Ok (map (fun k => {| Timestamp := At (fst k);
                         ProcessName := snd k;
                         Value := vsum (map Value (filter (has_key k) df)) |})
            (sort_values key_leb (nodup key_eq_dec (keys_of df)))).

(** *** Lines 77-82: [filter_top_consumers] *)

(** What the function returns: the table alone from its first [return], a
    pair from its second. *)
Inductive selection : Type :=
| Bare (df : list LongRow)
| Selected (df : list LongRow) (top_consumers : list string).

Definition named (n : string) (r : LongRow) : bool :=
  String.eqb (ProcessName r) n.

(** The running maximum of [max()]: replaced only by a larger value. *)
Definition vmax (cur val : V) : V := if vle val cur then cur else val.

Definition max_of (vs : list V) : option V :=
  match vs with
  | [] => None
  | v :: vs' => Some (fold_left vmax vs' v)
  end.

(** [df.groupby('ProcessName')['Value'].max()]: one entry per distinct name,
    names ascending. *)
Definition groupby_max (df : list LongRow) : list (string * V) :=
  flat_map (fun n => match max_of (map Value (filter (named n) df)) with
                     | Some m => [(n, m)]
                     | None => []
                     end)
           (sort_values String.leb (nodup string_dec (map ProcessName df))).

(** Descending order on the maxima. *)
Definition usage_geb (a b : string * V) : bool := vle (snd b) (snd a).

Definition default_top_n : Z := 10.

Definition filter_top_consumers (df : list LongRow) (top_n : Z) : selection :=
  if is_nil df then Bare df
  else
    let max_usage := sort_values usage_geb (groupby_max df) in
    let top_consumers := map fst (head top_n max_usage) in
    Selected (filter (fun r => mem (ProcessName r) top_consumers) df) top_consumers.

(** [a, b = filter_top_consumers(...)]: a pair unpacks; a bare table is
    iterated over its three column labels, one more than the two targets. *)
Definition unpack2 (s : selection) : res (list LongRow * list string) :=
  match s with
  | Selected df top_consumers => Ok (df, top_consumers)
  | Bare _ => Raise (ValueError "too many values to unpack (expected 2)")
  end.

(** *** Lines 88-152: the figure and the output file *)

(** [df_main[c]] for one of the counter columns. *)
Definition main_column (df_main : MainFrame) (c : string) : res (list cell) :=
  if mem c (main_columns df_main) then
    Ok (map (fun r => cell_at (main_columns df_main) (row_cells r) c) (main_rows df_main))
  else Raise (KeyError c).

(** Lines 112-118 and 121-127: one line per selected name, in the order of
    the selection, unless the filtered table is empty. *)
Definition process_traces (row : nat) (label : string)
    (df_filtered : list LongRow) (consumers : list string) : list trace :=
  if is_nil df_filtered then []
  else
    map (fun proc_name =>
           let proc_df := filter (named proc_name) df_filtered in
           {| t_row := row;
              t_name := label ++ proc_name;
              t_x := map Timestamp proc_df;
              t_y := map (fun r => CNum (Value r)) proc_df |})
        consumers.

Definition output_file : string := "MemoryForensicsReport.html".

Definition newline : string := String (ascii_of_nat 10) EmptyString.

(** Lines 44-144, on the merged table: the two long tables, the two
    selections and the traces, in the order the script evaluates them. *)
Definition build_figure (df_main : MainFrame) : res figure :=
  let* df_mem_raw := extract_top_data df_main "TopMem" "TopMem" 10 "MB" in
  let* df_mem := groupby_sum df_mem_raw in
  let* df_handle_raw := extract_top_data df_main "TopHandle" "TopHandle" 5 "Count" in
  let* df_handle := groupby_sum df_handle_raw in
  let* mem_sel := unpack2 (filter_top_consumers df_mem 5) in
  let* handle_sel := unpack2 (filter_top_consumers df_handle 3) in
  let x := map row_Timestamp (main_rows df_main) in
  let* total := main_column df_main "TotalMB" in
  let* used := main_column df_main "UsedMB" in
  let* non_paged := main_column df_main "NonPagedPoolMB" in
  let* paged := main_column df_main "PagedPoolMB" in
  Ok ([ {| t_row := 1; t_name := "總記憶體 (Total MB)"; t_x := x; t_y := total |};
        {| t_row := 1; t_name := "已用記憶體 (Used MB)"; t_x := x; t_y := used |};
        {| t_row := 2; t_name := "非分頁集區 (Non-Paged Pool) [關鍵]"; t_x := x;
           t_y := non_paged |};
        {| t_row := 2; t_name := "分頁集區 (Paged Pool)"; t_x := x; t_y := paged |} ]
      ++ process_traces 3 "Mem: " (fst mem_sel) (snd mem_sel)
      ++ process_traces 4 "Handles: " (fst handle_sel) (snd handle_sel)).

Definition success_messages : list message :=
  [ CreatedReport output_file;
    Say (newline ++ "報告已成功生成！請打開 MemoryForensicsReport.html 查看。");
    Say "Report has been successfully generated! Please open MemoryForensicsReport.html to view." ].

(** Lines 44-152. *)
Definition render_report (df_main : MainFrame) : M unit :=
  fig <- lift (build_figure df_main) ;;
  write_html output_file fig ;;;
  print (CreatedReport output_file) ;;;
  print (Say (newline ++ "報告已成功生成！請打開 MemoryForensicsReport.html 查看。")) ;;;
  print (Say "Report has been successfully generated! Please open MemoryForensicsReport.html to view.").

(** *** Lines 8-152: [generate_report] *)

Definition no_log_files : message :=
  Say "No log files (*_log.csv) found in the current directory.".

Definition no_valid_data : message :=
  Say "Could not read any valid data (New Format).".

Definition generate_report (dir : Directory) : M unit :=
  let log_files := glob dir in
  if is_nil log_files then print no_log_files
  else
    let log_files := isort String.leb log_files in
    print (FoundLogFiles log_files) ;;;
    all_dfs <- load_all (read_csv dir) log_files [] ;;
    if is_nil all_dfs then print no_valid_data
    else
      df_main <- lift (coerce_and_sort (concat all_dfs)) ;;
      render_report df_main.

End Pipeline.

(** ** The contract's vocabulary

    The notions in which the properties of the pipeline are stated: the
    tables that survive validation, the lines the loader prints, the present
    slots of the merged table, the ranking of process names, the traces of a
    chart row. *)

Section Contract.
Context {Vs : Values} {L : Library}.

(** Nothing printed, nothing written. *)
Definition no_effects : effects := {| console := []; written := None |}.

(** The tables of the files that parse and carry the marker column, in the
    order of the file names. *)
Definition valid_tables (read : string -> read_result) (fs : list string)
    : list DataFrame :=
  flat_map (fun f => match read f with
                     | ReadOk df => if has_column "NonPagedPoolMB" df then [df] else []
                     | ReadError _ => []
                     end) fs.

(** The lines the loading loop prints, in order. *)
Definition load_messages (read : string -> read_result) (fs : list string)
    : list message :=
  flat_map (fun f => match read f with
                     | ReadOk df =>
                         if has_column "NonPagedPoolMB" df then [] else [skip_message f]
                     | ReadError e => [ErrorReading f e]
                     end) fs.

(** The effects after printing [ms] more lines. *)
Definition printed (fx : effects) (ms : list message) : effects :=
  {| console := console fx ++ ms; written := written fx |}.

Definition row_count (df : DataFrame) : nat := List.length (data df).

Definition total_rows (dfs : list DataFrame) : nat :=
  fold_right (fun df n => (row_count df + n)%nat) O dfs.

(** Lines 38-144 as one partial function of the surviving tables. *)
Definition figure_of (all_dfs : list DataFrame) : res figure :=
  let* df_main := coerce_and_sort (concat all_dfs) in build_figure df_main.

(** The contract's reading of a slot: the pair of non-null cells of slot [i]
    in [row], when the table has both columns of the slot. *)
Definition slot_pair (cols : list string) (prefix_name prefix_val val_col_name : string)
    (row : MainRow) (i : nat) : option (scalar * scalar) :=
  if mem (slot_column prefix_name i "Name") cols
     && mem (slot_column prefix_val i val_col_name) cols then
    match present (cell_at cols (row_cells row) (slot_column prefix_name i "Name")),
          present (cell_at cols (row_cells row) (slot_column prefix_val i val_col_name)) with
    | Some p_name, Some p_val => Some (p_name, p_val)
    | _, _ => None
    end
  else None.

(** Every (table row, slot index) with a present pair, rows first, slot
    indices 1 to [count] within a row. *)
Definition present_slots (df_main : MainFrame) (prefix_name prefix_val : string)
    (count : nat) (val_col_name : string) : list (MainRow * (scalar * scalar)) :=
  flat_map (fun row =>
    flat_map (fun i =>
      match slot_pair (main_columns df_main) prefix_name prefix_val val_col_name row i with
      | Some p => [(row, p)]
      | None => []
      end) (seq 1 count)) (main_rows df_main).

(** The long row of a present pair: the value goes through [float]. *)
Definition long_row_of (rp : MainRow * (scalar * scalar)) : res LongRow :=
  let* v := py_float (snd (snd rp)) in
  Ok {| Timestamp := row_Timestamp (fst rp);
        ProcessName := py_str (fst (snd rp));
        Value := v |}.

(** Apply [f] along a list; the first exception ends the traversal. *)
Fixpoint map_res {A B : Type} (f : A -> res B) (l : list A) : res (list B) :=
  match l with
  | [] => Ok []
  | x :: l' =>
      let* y := f x in
      let* ys := map_res f l' in
      Ok (y :: ys)
  end.

Definition long_key (r : LongRow) : datetime * string := (Timestamp r, ProcessName r).

(** The distinct process names of a long table, in the order of the group
    index. *)
Definition names_of (df : list LongRow) : list string :=
  sort_values String.leb (nodup string_dec (map ProcessName df)).

(** The ranking the selector cuts: per-name maxima in descending order. *)
Definition ranking (df : list LongRow) : list (string * V) :=
  sort_values usage_geb (groupby_max df).

(** The traces added to one subplot row. *)
Definition row_traces (row : nat) (fig : figure) : list trace :=
  filter (fun tr => Nat.eqb (t_row tr) row) fig.

(** The two long tables of lines 68-74. *)
Definition long_tables (df_main : MainFrame) : res (list LongRow * list LongRow) :=
  let* df_mem_raw := extract_top_data df_main "TopMem" "TopMem" 10 "MB" in
  let* df_mem := groupby_sum df_mem_raw in
  let* df_handle_raw := extract_top_data df_main "TopHandle" "TopHandle" 5 "Count" in
  let* df_handle := groupby_sum df_handle_raw in
  Ok (df_mem, df_handle).

(** The two selections of lines 85-86, each a filtered table with its names. *)
Definition selections (df_main : MainFrame)
    : res ((list LongRow * list string) * (list LongRow * list string)) :=
  let* t := long_tables df_main in
  let* mem_sel := unpack2 (filter_top_consumers (fst t) 5) in
  let* handle_sel := unpack2 (filter_top_consumers (snd t) 3) in
  Ok (mem_sel, handle_sel).

(** The exceptions lines 68-86 can end in. *)
Definition selection_error (e : exn) : Prop :=
  e = ValueError "could not convert string to float"
  \/ e = KeyError "Timestamp"
  \/ e = ValueError "too many values to unpack (expected 2)".

(** The table in what the selector returned, from either [return]. *)
Definition table_of (s : selection) : list LongRow :=
  match s with
  | Bare df => df
  | Selected df _ => df
  end.

(** Two results of the selector that agree: they come from the same
    [return], hold the same table and, when names were selected, the same
    names up to their order. *)
Definition same_selection (s s' : selection) : Prop :=
  match s, s' with
  | Bare df, Bare df' => df = df'
  | Selected df names, Selected df' names' => df = df' /\ Permutation names names'
  | _, _ => False
  end.

(** What the loading loop made of one file: the table it appended, or the
    line it printed.  The tables and the lines of a list of outcomes, each
    in order. *)
Definition tables_in (outcomes : list (DataFrame + message)) : list DataFrame :=
  flat_map (fun o => match o with inl df => [df] | inr _ => [] end) outcomes.

Definition lines_in (outcomes : list (DataFrame + message)) : list message :=
  flat_map (fun o => match o with inl _ => [] | inr m => [m] end) outcomes.

(** The rows of some tables with the table each comes from, tables in
    order and the rows of one table in order. *)
Definition rows_with_table (dfs : list DataFrame) : list (DataFrame * list (cell V)) :=
  flat_map (fun df => map (pair df) (data df)) dfs.

(** A row of a merged table once its timestamp is coerced. *)
Definition stamped (ts : list datetime) (rows : list (list (cell V))) : list MainRow :=
  map (fun p => {| row_Timestamp := fst p; row_cells := snd p |}) (combine ts rows).

(** The counter columns read at lines 104-109, in the order they are read. *)
Definition counter_columns : list string :=
  ["TotalMB"; "UsedMB"; "NonPagedPoolMB"; "PagedPoolMB"].

(** The first counter column that a header lacks. *)
Definition first_missing (cols : list string) : option string :=
  find (fun c => negb (mem c cols)) counter_columns.

(** The largest value observed for a name, if the name occurs. *)
Definition peak (df : list LongRow) (n : string) : option V :=
  max_of (map Value (filter (named n) df)).

(** The distinct process names of a long table. *)
Definition distinct_names (df : list LongRow) : list string :=
  nodup string_dec (map ProcessName df).

(** [a] is a point in time strictly before [b]. *)
Definition before (a b : datetime) : Prop :=
  match a, b with
  | At x, At y => x < y
  | _, _ => False
  end.

(** The merged table of some tables, when the coercion accepts them. *)
Definition merged_of (all_dfs : list DataFrame) : MainFrame :=
  match coerce_and_sort (concat all_dfs) with
  | Ok df_main => df_main
  | Raise _ => {| main_columns := []; main_rows := [] |}
  end.

(** The figure built from a merged table, when one is built. *)
Definition figure_built (df_main : MainFrame) : figure :=
  match build_figure df_main with
  | Ok fig => fig
  | Raise _ => []
  end.

(** The figure a run from [no_effects] leaves in the file it writes. *)
Definition figure_written (dir : Directory) : figure :=
  match written (snd (generate_report dir no_effects)) with
  | Some (_, fig) => fig
  | None => []
  end.

End Contract.

(** ** A reference implementation of the library interface

    Exact arithmetic instead of binary64: numbers are rationals, text is
    coerced when it is a plain decimal literal, a timestamp is text of the
    form [YYYY-MM-DD HH:MM:SS] (or a number of nanoseconds, or missing), and
    the sort is insertion sort. *)

Module Ref.

Definition digit (c : ascii) : option Z :=
  let n := Z.of_nat (nat_of_ascii c) in
  if (48 <=? n) && (n <=? 57) then Some (n - 48) else None.

(** The value of a non-empty run of decimal digits, with its length. *)
Fixpoint digits (cs : list ascii) (acc : Z) (len : nat) : option (Z * nat) :=
  match cs with
  | [] => if Nat.eqb len 0 then None else Some (acc, len)
  | c :: cs' =>
      match digit c with
      | Some d => digits cs' (10 * acc + d) (S len)
      | None => None
      end
  end.

Fixpoint split_dot (cs : list ascii) : list ascii * option (list ascii) :=
  match cs with
  | [] => ([], None)
  | c :: cs' =>
      if Ascii.eqb c "."%char then ([], Some cs')
      else let (a, b) := split_dot cs' in (c :: a, b)
  end.

Definition unsigned_decimal (cs : list ascii) : option Q :=
  match split_dot cs with
  | (ip, None) =>
      match digits ip 0 0 with
      | Some (n, _) => Some (inject_Z n)
      | None => None
      end
  | (ip, Some fp) =>
      match digits ip 0 0, digits fp 0 0 with
      | Some (n, _), Some (f, k) =>
          Some (Qred (Qmake (n * 10 ^ Z.of_nat k + f) (Z.to_pos (10 ^ Z.of_nat k))))
      | _, _ => None
      end
  end.

(** [float(s)] on the literals [d+], [d+.d+] and their negations. *)
Definition float_of_str (s : string) : option Q :=
  match list_ascii_of_string s with
  | "-"%char :: cs =>
      match unsigned_decimal cs with
      | Some q => Some (Qopp q)
      | None => None
      end
  | cs => unsigned_decimal cs
  end.

Definition str_of_Z (z : Z) : string := NilZero.string_of_int (Z.to_int z).

(** [str(x)]: an integer prints its digits, another rational its fraction. *)
Definition str_of_num (q : Q) : string :=
  if Pos.eqb (Qden q) 1 then str_of_Z (Qnum q)
  else (str_of_Z (Qnum q) ++ "/" ++ str_of_Z (Z.pos (Qden q)))%string.

Definition vsum (vs : list Q) : Q := Qred (fold_left Qplus vs 0%Q).

Definition two_digits (a b : ascii) : option Z :=
  match digit a, digit b with
  | Some x, Some y => Some (10 * x + y)
  | _, _ => None
  end.

Definition leap (y : Z) : bool :=
  ((y mod 4 =? 0) && negb (y mod 100 =? 0)) || (y mod 400 =? 0).

Definition days_in_month (y m : Z) : Z :=
  if m =? 2 then (if leap y then 29 else 28)
  else if (m =? 4) || (m =? 6) || (m =? 9) || (m =? 11) then 30
  else 31.

(** Days from 1970-01-01 to the civil date [y]-[m]-[d]. *)
Definition days_from_civil (y m d : Z) : Z :=
  let y' := if m <=? 2 then y - 1 else y in
  let era := y' / 400 in
  let yoe := y' - era * 400 in
  let doy := (153 * (if 2 <? m then m - 3 else m + 9) + 2) / 5 + d - 1 in
  let doe := yoe * 365 + yoe / 4 - yoe / 100 + doy in
  era * 146097 + doe - 719468.

Definition parse_timestamp (s : string) : option Z :=
  match list_ascii_of_string s with
  | [y1; y2; y3; y4; c1; m1; m2; c2; d1; d2; c3; h1; h2; c4; n1; n2; c5; s1; s2] =>
      if Ascii.eqb c1 "-" && Ascii.eqb c2 "-" && Ascii.eqb c3 " "
         && Ascii.eqb c4 ":" && Ascii.eqb c5 ":" then
        match two_digits y1 y2, two_digits y3 y4, two_digits m1 m2,
              two_digits d1 d2, two_digits h1 h2, two_digits n1 n2,
              two_digits s1 s2 with
        | Some ya, Some yb, Some m, Some d, Some h, Some n, Some sec =>
            let y := 100 * ya + yb in
            if (1 <=? m) && (m <=? 12) && (1 <=? d) && (d <=? days_in_month y m)
               && (h <? 24) && (n <? 60) && (sec <? 60) then
              Some ((((days_from_civil y m d * 24 + h) * 60 + n) * 60 + sec)
                    * 1000000000)
            else None
        | _, _, _, _, _, _, _ => None
        end
      else None
  | _ => None
  end.

Definition to_datetime1 (c : cell Q) : option datetime :=
  match c with
  | CNaN => Some NaT
  | CNum q => Some (At (Qfloor q))
  | CStr s =>
      match parse_timestamp s with
      | Some ns => Some (At ns)
      | None => None
      end
  end.

(** The whole column converts, or the call raises. *)
Fixpoint to_datetime (col : list (cell Q)) : option (list datetime) :=
  match col with
  | [] => Some []
  | c :: col' =>
      match to_datetime1 c, to_datetime col' with
      | Some t, Some ts => Some (t :: ts)
      | _, _ => None
      end
  end.

End Ref.

(** ** Concrete directories for the reference implementation *)

#[export] Instance QValues : Values := {| V := Q |}.

Module Ex.

Definition num (z : Z) : cell Q := CNum (inject_Z z).

(** The header of a current-format log with two memory slots and two handle
    slots filled in. *)
Definition header : list string :=
  [ "Timestamp"; "TotalMB"; "UsedMB"; "NonPagedPoolMB"; "PagedPoolMB";
    "TopMem1_Name"; "TopMem1_MB"; "TopMem2_Name"; "TopMem2_MB";
    "TopHandle1_Name"; "TopHandle1_Count"; "TopHandle2_Name"; "TopHandle2_Count" ].

Definition snapshot (ts : string) (used : Z)
    (m1 : string) (v1 : Z) (m2 : string) (v2 : Z)
    (h1 : string) (c1 : Z) (h2 : string) (c2 : Z) : list (cell Q) :=
  [ CStr ts; num 16384; num used; num 120; num 310;
    CStr m1; num v1; CStr m2; num v2; CStr h1; num c1; CStr h2; num c2 ].

Definition day1 : DataFrame :=
  {| columns := header;
     data :=
       [ snapshot "2024-03-01 10:10:00" 9100 "slack.exe" 400 "outlook.exe" 300
                  "lsm.exe" 4200 "chrome.exe" 1500;
         snapshot "2024-03-01 10:00:00" 9000 "chrome.exe" 900 "code.exe" 500
                  "lsm.exe" 4000 "svchost.exe" 3000;
         snapshot "2024-03-01 10:05:00" 9050 "chrome.exe" 950 "teams.exe" 700
                  "lsm.exe" 4100 "explorer.exe" 2000 ] |}.

Definition day2 : DataFrame :=
  {| columns := header;
     data :=
       [ snapshot "2024-03-02 10:00:00" 9200 "firefox.exe" 800 "code.exe" 520
                  "System" 2500 "svchost.exe" 3100;
         snapshot "2024-03-02 10:05:00" 9300 "java.exe" 1200 "chrome.exe" 990
                  "lsm.exe" 4300 "System" 2600;
         snapshot "2024-03-02 10:10:00" 9400 "java.exe" 1250 "teams.exe" 710
                  "lsm.exe" 4400 "explorer.exe" 2100 ] |}.

(** A log of the old format: it parses, without the marker column. *)
Definition legacy : DataFrame :=
  {| columns := ["Timestamp"; "UsedMB"];
     data := [ [CStr "2023-12-31 23:59:00"; num 7000] ] |}.

(** A current-format log whose timestamp is not a date. *)
Definition bad_timestamp : DataFrame :=
  {| columns := header;
     data := [ snapshot "yesterday noon" 9000 "chrome.exe" 900 "code.exe" 500
                        "lsm.exe" 4000 "svchost.exe" 3000 ] |}.

(** A current-format log whose first memory value carries its unit. *)
Definition bad_value : DataFrame :=
  {| columns := header;
     data := [ [ CStr "2024-03-01 10:00:00"; num 16384; num 9000; num 120; num 310;
                 CStr "chrome.exe"; CStr "12MB"; CStr "code.exe"; num 500;
                 CStr "lsm.exe"; num 4000; CStr "svchost.exe"; num 3000 ] ] |}.

(** A current-format log with the counters only: no slot column at all. *)
Definition counters_only : DataFrame :=
  {| columns := ["Timestamp"; "TotalMB"; "UsedMB"; "NonPagedPoolMB"; "PagedPoolMB"];
     data := [ [CStr "2024-03-01 10:00:00"; num 16384; num 9000; num 120; num 310] ] |}.

(** A current-format log whose rows all miss their timestamp. *)
Definition no_timestamps : DataFrame :=
  {| columns := header;
     data := [ [ CNaN; num 16384; num 9000; num 120; num 310;
                 CStr "chrome.exe"; num 900; CStr "code.exe"; num 500;
                 CStr "lsm.exe"; num 4000; CStr "svchost.exe"; num 3000 ] ] |}.

Definition files (f : string) : read_result :=
  if String.eqb f "day1_log.csv" then ReadOk day1
  else if String.eqb f "day2_log.csv" then ReadOk day2
  else if String.eqb f "legacy_log.csv" then ReadOk legacy
  else if String.eqb f "bad_timestamp_log.csv" then ReadOk bad_timestamp
  else if String.eqb f "bad_value_log.csv" then ReadOk bad_value
  else if String.eqb f "counters_log.csv" then ReadOk counters_only
  else if String.eqb f "no_timestamps_log.csv" then ReadOk no_timestamps
  else ReadError "No columns to parse from file".

Definition dir_empty : Directory := {| glob := []; read_csv := files |}.

Definition dir_good : Directory :=
  {| glob := ["day2_log.csv"; "legacy_log.csv"; "day1_log.csv"; "empty_log.csv"];
     read_csv := files |}.

Definition dir_legacy : Directory :=
  {| glob := ["legacy_log.csv"; "empty_log.csv"]; read_csv := files |}.

Definition dir_bad_timestamp : Directory :=
  {| glob := ["bad_timestamp_log.csv"]; read_csv := files |}.

Definition dir_bad_value : Directory :=
  {| glob := ["bad_value_log.csv"]; read_csv := files |}.

Definition dir_counters : Directory :=
  {| glob := ["counters_log.csv"]; read_csv := files |}.

Definition dir_no_timestamps : Directory :=
  {| glob := ["no_timestamps_log.csv"]; read_csv := files |}.

(** One snapshot in which [chrome.exe] fills both memory slots. *)
Definition twice : MainFrame :=
  {| main_columns := header;
     main_rows :=
       [ {| row_Timestamp := At 1709287200000000000;
            row_cells := snapshot "2024-03-01 10:00:00" 9000 "chrome.exe" 10
                                  "chrome.exe" 15 "lsm.exe" 4000 "svchost.exe" 3000 |} ] |}.

(** [dir_good] with its names listed in the opposite order. *)
Definition dir_good_reversed : Directory :=
  {| glob := rev (glob dir_good); read_csv := files |}.

(** A merged table of one snapshot whose header lacks [UsedMB]. *)
Definition twice_no_used : MainFrame :=
  {| main_columns :=
       [ "Timestamp"; "TotalMB"; "NonPagedPoolMB"; "PagedPoolMB";
         "TopMem1_Name"; "TopMem1_MB"; "TopHandle1_Name"; "TopHandle1_Count" ];
     main_rows :=
       [ {| row_Timestamp := At 1709287200000000000;
            row_cells := [ CStr "2024-03-01 10:00:00"; num 16384; num 120; num 310;
                           CStr "chrome.exe"; num 900; CStr "lsm.exe"; num 4000 ] |} ] |}.

(** The merged table of [bad_value]. *)
Definition bad_value_main : MainFrame :=
  {| main_columns := header;
     main_rows := [ {| row_Timestamp := At 1709287200000000000;
                       row_cells := hd [] (data bad_value) |} ] |}.

Definition obs (t : Z) (n : string) (v : Z) : LongRow :=
  {| Timestamp := At t; ProcessName := n; Value := inject_Z v |}.

(** A long table over three names. *)
Definition usage : list LongRow :=
  [ obs 1 "chrome.exe" 900; obs 1 "code.exe" 500; obs 1 "teams.exe" 700;
    obs 2 "chrome.exe" 950; obs 2 "code.exe" 1100; obs 2 "teams.exe" 100 ].

End Ex.

(** *** The laws of the interface for the reference implementation *)

Lemma insert_sorted_perm (A : Type) (le : A -> A -> bool) (x : A) (l : list A) :
  Permutation (insert_sorted le x l) (x :: l).
Proof.
  induction l as [|y l IH]; simpl.
  - apply Permutation_refl.
  - destruct (le x y).
    + apply Permutation_refl.
    + apply Permutation_trans with (y :: x :: l).
      * now apply perm_skip.
      * apply perm_swap.
Qed.

Lemma isort_perm (A : Type) (le : A -> A -> bool) (l : list A) :
  Permutation (isort le l) l.
Proof.
  induction l as [|x l IH]; simpl.
  - apply perm_nil.
  - eapply Permutation_trans; [apply insert_sorted_perm|].
    now apply perm_skip.
Qed.

Lemma insert_sorted_sorted (A : Type) (le : A -> A -> bool) (x : A) (l : list A) :
  total_leb le -> trans_leb le ->
  StronglySorted (fun a b => le a b = true) l ->
  StronglySorted (fun a b => le a b = true) (insert_sorted le x l).
Proof.
  intros Htot Htr Hs.
  induction Hs as [|y l Hs IH Hall]; simpl.
  - constructor; [constructor | constructor].
  - destruct (le x y) eqn:Hxy.
    + constructor.
      * now constructor.
      * constructor; [exact Hxy|].
        eapply Forall_impl; [|exact Hall].
        intros z Hyz. now apply Htr with y.
    + constructor; [exact IH|].
      assert (Hyx : le y x = true).
      { destruct (Htot x y) as [H|H]; [congruence | exact H]. }
      eapply Permutation_Forall.
      * apply Permutation_sym, insert_sorted_perm.
      * now constructor.
Qed.

Lemma isort_sorted (A : Type) (le : A -> A -> bool) (l : list A) :
  total_leb le -> trans_leb le ->
  StronglySorted (fun a b => le a b = true) (isort le l).
Proof.
  intros Htot Htr.
  induction l as [|x l IH]; simpl.
  - constructor.
  - now apply insert_sorted_sorted.
Qed.

Lemma Qle_bool_total : total_leb Qle_bool.
Proof.
  intros a b.
  destruct (Qlt_le_dec a b) as [H|H].
  - left. apply Qle_bool_iff. now apply Qlt_le_weak.
  - right. now apply Qle_bool_iff.
Qed.

Lemma Qle_bool_trans : trans_leb Qle_bool.
Proof.
  intros a b c Hab Hbc.
  apply Qle_bool_iff in Hab. apply Qle_bool_iff in Hbc.
  apply Qle_bool_iff. now apply Qle_trans with b.
Qed.

Lemma ref_to_datetime_length (col : list (cell Q)) (ts : list datetime) :
  Ref.to_datetime col = Some ts -> List.length ts = List.length col.
Proof.
  revert ts.
  induction col as [|c col IH]; simpl; intros ts H.
  - injection H as <-. reflexivity.
  - destruct (Ref.to_datetime1 c); [|discriminate].
    destruct (Ref.to_datetime col) as [ts'|]; [|discriminate].
    injection H as <-. simpl. f_equal. now apply IH.
Qed.

#[export] Instance RefLib : Library := {|
  vle := Qle_bool;
  vle_total := Qle_bool_total;
  vle_trans := Qle_bool_trans;
  vsum := Ref.vsum;
  float_of_str := Ref.float_of_str;
  str_of_num := Ref.str_of_num;
  to_datetime := Ref.to_datetime;
  to_datetime_length := ref_to_datetime_length;
  sort_values := @isort;
  sort_values_perm := isort_perm;
  sort_values_sorted := isort_sorted
|}.

(** ** The run of [generate_report], stage by stage *)

Section Run.
Context {Vs : Values} {L : Library}.

Lemma printed_nil (fx : effects) : printed fx [] = fx.
Proof. destruct fx as [c w]. unfold printed. simpl. now rewrite app_nil_r. Qed.

Lemma printed_app (fx : effects) (ms ms' : list message) :
  printed (printed fx ms) ms' = printed fx (ms ++ ms').
Proof. unfold printed. simpl. now rewrite app_assoc. Qed.

Lemma load_all_spec (read : string -> read_result) (fs : list string)
    (acc : list DataFrame) (fx : effects) :
  load_all read fs acc fx
  = (Ok (acc ++ valid_tables read fs), printed fx (load_messages read fs)).
Proof.
  revert acc fx.
  induction fs as [|f fs IH]; intros acc fx; simpl.
  - unfold ret. now rewrite app_nil_r, printed_nil.
  - unfold bind at 1.
    destruct (read f) as [e|df].
    + unfold bind, print, ret. simpl. rewrite IH. f_equal.
      apply (printed_app fx [ErrorReading f e]).
    + destruct (has_column "NonPagedPoolMB" df).
      * unfold ret. rewrite IH. simpl. now rewrite <- app_assoc.
      * unfold bind, print, ret. simpl. rewrite IH. f_equal.
        apply (printed_app fx [skip_message f]).
Qed.

(** The whole run in closed form: the two early returns, an exception out of
    lines 38-144, or the file written and the three closing lines. *)
Lemma generate_report_spec (dir : Directory) (fx : effects) :
  generate_report dir fx =
  match glob dir with
  | [] => (Ok tt, printed fx [no_log_files])
  | _ :: _ =>
      let fs := isort String.leb (glob dir) in
      let fx1 := printed fx (FoundLogFiles fs :: load_messages (read_csv dir) fs) in
      match valid_tables (read_csv dir) fs with
      | [] => (Ok tt, printed fx1 [no_valid_data])
      | df :: dfs =>
          match figure_of (df :: dfs) with
          | Raise e => (Raise e, fx1)
          | Ok fig =>
              (Ok tt, {| console := console fx1 ++ success_messages;
                         written := Some (output_file, fig) |})
          end
      end
  end.
Proof.
  unfold generate_report.
  destruct (glob dir) as [|g gs] eqn:Hg; [reflexivity|].
  cbn [is_nil]. cbv zeta.
  set (fs := isort String.leb (g :: gs)).
  unfold bind at 1. unfold print at 1.
  unfold bind at 1. rewrite load_all_spec. cbn [app].
  rewrite (printed_app fx [FoundLogFiles fs]). cbn [app].
  destruct (valid_tables (read_csv dir) fs) as [|df dfs]; [reflexivity|].
  cbn [is_nil]. unfold figure_of, bind at 1, lift at 1.
  destruct (coerce_and_sort (concat (df :: dfs))) as [m|e]; [|reflexivity].
  cbn [res_bind]. unfold render_report, bind at 1, lift at 1.
  destruct (build_figure m) as [fig|e]; [|reflexivity].
  unfold bind, write_html, print, success_messages. cbn.
  repeat rewrite <- app_assoc. reflexivity.
Qed.

(** Whatever happens after loading, the lines printed up to then stay. *)
Lemma run_console_prefix (dir : Directory) (fx : effects) :
  glob dir <> [] ->
  exists ms,
    console (snd (generate_report dir fx))
    = console fx
      ++ FoundLogFiles (isort String.leb (glob dir))
         :: load_messages (read_csv dir) (isort String.leb (glob dir)) ++ ms.
Proof.
  intros Hg. rewrite generate_report_spec.
  destruct (glob dir) as [|g gs]; [contradiction|]. cbv zeta.
  destruct (valid_tables _ _) as [|d ds].
  - exists [no_valid_data]. simpl. now rewrite <- app_assoc.
  - destruct (figure_of (d :: ds)).
    + exists success_messages. simpl. now rewrite <- app_assoc.
    + exists []. simpl. now rewrite app_nil_r.
Qed.

Lemma run_no_valid_data (dir : Directory) (fx : effects) :
  glob dir <> [] ->
  valid_tables (read_csv dir) (isort String.leb (glob dir)) = [] ->
  generate_report dir fx
  = (Ok tt,
     printed fx (FoundLogFiles (isort String.leb (glob dir))
                 :: load_messages (read_csv dir) (isort String.leb (glob dir))
                    ++ [no_valid_data])).
Proof.
  intros Hg Hv. rewrite generate_report_spec.
  destruct (glob dir) as [|g gs]; [contradiction|]. cbv zeta.
  rewrite Hv. unfold printed. simpl. now rewrite <- app_assoc.
Qed.

End Run.

(** ** Discovery and loading (lines 10-42) *)

Section Loading.
Context {Vs : Values} {L : Library}.

Lemma dt_leb_total : total_leb dt_leb.
Proof.
  intros [|x] [|y]; simpl; auto.
  destruct (Z.leb_spec x y); [now left|].
  right. apply Z.leb_le. lia.
Qed.

Lemma dt_leb_trans : trans_leb dt_leb.
Proof.
  intros [|x] [|y] [|z]; simpl; intros H1 H2; try reflexivity; try discriminate.
  apply Z.leb_le in H1. apply Z.leb_le in H2. apply Z.leb_le. lia.
Qed.

Lemma StronglySorted_map (A B : Type) (f : A -> B) (R : B -> B -> Prop) (l : list A) :
  StronglySorted (fun a b => R (f a) (f b)) l -> StronglySorted R (map f l).
Proof.
  induction 1 as [|a l Hs IH Hall]; simpl; constructor.
  - exact IH.
  - apply Forall_map. exact Hall.
Qed.

Lemma concat_row_count (dfs : list DataFrame) :
  row_count (concat dfs) = total_rows dfs.
Proof.
  unfold row_count, concat. simpl.
  generalize (union_columns dfs). intros cols.
  induction dfs as [|df dfs IH]; simpl; [reflexivity|].
  rewrite length_app, IH. f_equal.
  unfold reindex. now rewrite length_map.
Qed.

Lemma get_column_length (df : DataFrame) (c : string) (col : list (cell V)) :
  get_column df c = Ok col -> List.length col = row_count df.
Proof.
  unfold get_column, row_count.
  destruct (has_column c df); [|discriminate].
  intros H. injection H as <-. now rewrite length_map.
Qed.

Lemma in_isort (A : Type) (le : A -> A -> bool) (x : A) (l : list A) :
  In x (isort le l) <-> In x l.
Proof.
  split; apply Permutation_in.
  - apply isort_perm.
  - apply Permutation_sym, isort_perm.
Qed.

(** C8: with no file matching [*_log.csv] the run prints the diagnostic and
    returns at once; the effects gain that one line and no file is written. *)
Theorem C8_no_log_files (dir : Directory) (fx : effects) :
  glob dir = [] ->
  fst (generate_report dir fx) = Ok tt
  /\ console (snd (generate_report dir fx))
     = console fx ++ [Say "No log files (*_log.csv) found in the current directory."]
  /\ written (snd (generate_report dir fx)) = written fx.
Proof.
  intros Hg. rewrite generate_report_spec, Hg. simpl. auto.
Qed.

(** C9: a file that parses but lacks the marker column [NonPagedPoolMB] is
    left out of the loaded tables, its skip line is printed and the loop goes
    on with the remaining files, so every file that has the column is loaded
    whatever the others lack; and when no table survives, the run prints
    "Could not read any valid data (New Format)." and returns without
    writing a file. *)
Theorem C9_legacy_files_skipped (dir : Directory) (fx : effects) :
  let fs := isort String.leb (glob dir) in
  let run := generate_report dir fx in
  (forall f df rest acc fx',
      read_csv dir f = ReadOk df -> has_column "NonPagedPoolMB" df = false ->
      load_all (read_csv dir) (f :: rest) acc fx'
      = load_all (read_csv dir) rest acc
          (printed fx' [Say ("Skipping " ++ f ++ ": Old format (missing NonPagedPoolMB)")]))
  /\ (forall f df,
      In f (glob dir) -> read_csv dir f = ReadOk df ->
      has_column "NonPagedPoolMB" df = false ->
      In (Say ("Skipping " ++ f ++ ": Old format (missing NonPagedPoolMB)"))
         (console (snd run)))
  /\ (forall f df,
      In f (glob dir) -> read_csv dir f = ReadOk df ->
      has_column "NonPagedPoolMB" df = true ->
      In df (valid_tables (read_csv dir) fs)
      /\ fst (load_all (read_csv dir) fs [] fx) = Ok (valid_tables (read_csv dir) fs))
  /\ (glob dir <> [] -> valid_tables (read_csv dir) fs = [] ->
      fst run = Ok tt
      /\ console (snd run)
         = console fx ++ FoundLogFiles fs :: load_messages (read_csv dir) fs
             ++ [Say "Could not read any valid data (New Format)."]
      /\ written (snd run) = written fx).
Proof.
  intros fs run. split; [|split; [|split]].
  - intros f df rest acc fx' Hr Hm. simpl. unfold bind at 1. now rewrite Hr, Hm.
  - intros f df Hin Hr Hm.
    destruct (run_console_prefix dir fx) as [ms Hms].
    { intros E. rewrite E in Hin. contradiction. }
    unfold run. rewrite Hms. fold fs.
    apply in_or_app. right. right. apply in_or_app. left.
    unfold load_messages. apply in_flat_map. exists f. split.
    + now apply in_isort.
    + rewrite Hr, Hm. now left.
  - intros f df Hin Hr Hm. split; [|now rewrite load_all_spec].
    unfold valid_tables. apply in_flat_map. exists f. split.
    + now apply in_isort.
    + rewrite Hr, Hm. now left.
  - intros Hg Hv. unfold run. rewrite (run_no_valid_data dir fx Hg Hv). fold fs.
    simpl. auto.
Qed.

(** C7, as the code has it: when at least one file parses and carries the
    marker column, the concatenated table has as many rows as those files
    together.  The coercion raises [KeyError] when that table has no
    [Timestamp] column and raises as well when [pd.to_datetime] rejects the
    column; in both cases there is no merged table.  When [pd.to_datetime]
    accepts the column, the merged table keeps the header, its rows are the
    rows of the concatenation in another order, each paired with the
    timestamp [pd.to_datetime] gave for its own [Timestamp] cell, there are
    as many as in the files together, and they are in non-decreasing
    timestamp order ([NaT] last). *)
Theorem C7_merged_rows_sorted (dir : Directory) :
  let all_dfs := valid_tables (read_csv dir) (isort String.leb (glob dir)) in
  let col := map (fun r => cell_at (columns (concat all_dfs)) r "Timestamp")
                 (data (concat all_dfs)) in
  all_dfs <> [] ->
  row_count (concat all_dfs) = total_rows all_dfs
  /\ (has_column "Timestamp" (concat all_dfs) = false ->
      coerce_and_sort (concat all_dfs) = Raise (KeyError "Timestamp"))
  /\ (has_column "Timestamp" (concat all_dfs) = true ->
      match to_datetime col with
      | None => exists e, coerce_and_sort (concat all_dfs) = Raise e
      | Some ts =>
          exists df_main,
            coerce_and_sort (concat all_dfs) = Ok df_main
            /\ main_columns df_main = columns (concat all_dfs)
            /\ List.length ts = row_count (concat all_dfs)
            /\ Permutation (main_rows df_main) (stamped ts (data (concat all_dfs)))
            /\ List.length (main_rows df_main) = total_rows all_dfs
            /\ StronglySorted (fun a b => dt_leb a b = true)
                 (map row_Timestamp (main_rows df_main))
      end).
Proof.
  intros all_dfs col _. split; [apply concat_row_count|].
  unfold coerce_and_sort, get_column. split.
  - intros H. now rewrite H.
  - intros H. rewrite H. cbn [res_bind]. fold col.
    destruct (to_datetime col) as [ts|] eqn:Hts; [|eexists; reflexivity].
    assert (Hlen : List.length ts = row_count (concat all_dfs)).
    { rewrite (to_datetime_length _ Hts). unfold col. apply length_map. }
    eexists. split; [reflexivity|]. cbn [main_columns main_rows].
    split; [reflexivity|]. split; [exact Hlen|]. split; [apply sort_values_perm|].
    split.
    + rewrite (Permutation_length (sort_values_perm _ _)).
      rewrite length_map, length_combine, Hlen.
      fold (row_count (concat all_dfs)). rewrite Nat.min_id.
      apply concat_row_count.
    + apply StronglySorted_map.
      apply sort_values_sorted.
      * intros a b. apply dt_leb_total.
      * intros a b c. apply dt_leb_trans.
Qed.

End Loading.

(** ** The reshaper (lines 47-74) *)

Section Reshaper.
Context {Vs : Values} {L : Library}.

Lemma map_res_app (A B : Type) (f : A -> res B) (l1 l2 : list A) :
  map_res f (l1 ++ l2)
  = let* r1 := map_res f l1 in let* r2 := map_res f l2 in Ok (r1 ++ r2).
Proof.
  induction l1 as [|x l1 IH]; simpl.
  - destruct (map_res f l2); reflexivity.
  - destruct (f x) as [y|e]; simpl; [|reflexivity].
    rewrite IH. destruct (map_res f l1) as [r1|e]; simpl; [|reflexivity].
    destruct (map_res f l2); reflexivity.
Qed.

(** A loop whose body appends the images of [g x] is a traversal of the
    flattened list. *)
Lemma for_each_flat (X Y Z : Type) (g : X -> list Y) (f : Y -> res Z)
    (body : list Z -> X -> res (list Z)) :
  (forall data x, body data x = let* rs := map_res f (g x) in Ok (data ++ rs)) ->
  forall xs data,
    for_each xs data body = let* rs := map_res f (flat_map g xs) in Ok (data ++ rs).
Proof.
  intros Hbody. induction xs as [|x xs IH]; intros data; simpl.
  - now rewrite app_nil_r.
  - rewrite Hbody, map_res_app.
    destruct (map_res f (g x)) as [r1|e]; simpl; [|reflexivity].
    rewrite IH. destruct (map_res f (flat_map g xs)) as [r2|e]; simpl; [|reflexivity].
    now rewrite app_assoc.
Qed.

Lemma extract_slot_spec (cols : list string) (pn pv unit_ : string) (row : MainRow)
    (data : list LongRow) (i : nat) :
  extract_slot cols pn pv unit_ row data i
  = let* rs := map_res long_row_of
                 match slot_pair cols pn pv unit_ row i with
                 | Some p => [(row, p)]
                 | None => []
                 end in
    Ok (data ++ rs).
Proof.
  unfold extract_slot, slot_pair. cbv zeta.
  destruct (mem (slot_column pn i "Name") cols && mem (slot_column pv i unit_) cols);
    [|simpl; now rewrite app_nil_r].
  destruct (present (cell_at cols (row_cells row) (slot_column pn i "Name"))) as [n|];
    [|simpl; now rewrite app_nil_r].
  destruct (present (cell_at cols (row_cells row) (slot_column pv i unit_))) as [v|];
    [|simpl; now rewrite app_nil_r].
  simpl. unfold long_row_of. simpl.
  destruct (py_float v); reflexivity.
Qed.

(** The nested loops of [extract_top_data] are the traversal of the present
    slots. *)
Lemma extract_top_data_spec (df_main : MainFrame) (pn pv : string) (count : nat)
    (unit_ : string) :
  extract_top_data df_main pn pv count unit_
  = map_res long_row_of (present_slots df_main pn pv count unit_).
Proof.
  unfold extract_top_data, present_slots.
  rewrite for_each_flat with
    (f := long_row_of)
    (g := fun row =>
            flat_map (fun i =>
              match slot_pair (main_columns df_main) pn pv unit_ row i with
              | Some p => [(row, p)]
              | None => []
              end) (seq 1 count)).
  - destruct (map_res long_row_of _); reflexivity.
  - intros data row. apply for_each_flat. intros d i. apply extract_slot_spec.
Qed.

Lemma map_res_ok (A B : Type) (f : A -> res B) (l : list A) :
  (forall x, In x l -> exists y, f x = Ok y) ->
  exists ys, map_res f l = Ok ys /\ Forall2 (fun x y => f x = Ok y) l ys.
Proof.
  induction l as [|x l IH]; intros H; simpl.
  - exists []. split; [reflexivity | constructor].
  - destruct (H x (or_introl eq_refl)) as [y Hy].
    destruct IH as [ys [Hys HF]]; [intros z Hz; apply H; now right|].
    exists (y :: ys). rewrite Hy, Hys. split; [reflexivity|].
    now constructor.
Qed.

Lemma has_key_iff (t : Z) (n : string) (r : LongRow) :
  has_key (t, n) r = true <-> Timestamp r = At t /\ ProcessName r = n.
Proof.
  unfold has_key, row_key.
  destruct (Timestamp r) as [|t']; [split; [discriminate | intros [H _]; discriminate]|].
  destruct (key_eq_dec (t, n) (t', ProcessName r)) as [E|N].
  - injection E as -> ->. split; auto.
  - split; [discriminate|]. intros [H1 H2]. injection H1 as ->. subst n. contradiction.
Qed.

Lemma in_keys_of (k : key) (df : list LongRow) :
  In k (keys_of df) <-> exists r, In r df /\ row_key r = Some k.
Proof.
  unfold keys_of. rewrite in_flat_map. split.
  - intros [r [Hr Hk]]. exists r. split; [exact Hr|].
    destruct (row_key r) as [k'|]; [|contradiction].
    destruct Hk as [->|[]]. reflexivity.
  - intros [r [Hr Hk]]. exists r. split; [exact Hr|]. rewrite Hk. now left.
Qed.

Lemma group_keys_spec (df : list LongRow) :
  NoDup (sort_values key_leb (nodup key_eq_dec (keys_of df)))
  /\ forall k, In k (sort_values key_leb (nodup key_eq_dec (keys_of df)))
               <-> exists r, In r df /\ row_key r = Some k.
Proof.
  split.
  - eapply Permutation_NoDup.
    + apply Permutation_sym, sort_values_perm.
    + apply NoDup_nodup.
  - intros k. rewrite <- in_keys_of. split; intros H.
    + apply (nodup_In key_eq_dec).
      revert H. apply Permutation_in, sort_values_perm.
    + apply (nodup_In key_eq_dec) in H.
      revert H. apply Permutation_in, Permutation_sym, sort_values_perm.
Qed.

Lemma map_res_raise_const (A B : Type) (f : A -> res B) (l : list A) (x : A)
    (e e0 : exn) :
  (forall y e', f y = Raise e' -> e' = e0) ->
  In x l -> f x = Raise e -> map_res f l = Raise e0.
Proof.
  intros Hconst. induction l as [|z l IH]; intros Hin Hx; [contradiction|]. simpl.
  destruct (f z) as [y|e'] eqn:Hz.
  - destruct Hin as [->|Hin]; [congruence|].
    simpl. now rewrite (IH Hin Hx).
  - simpl. f_equal. now apply Hconst with z.
Qed.

Lemma long_row_of_ok (rp : MainRow * (scalar * scalar)) (r : LongRow) :
  long_row_of rp = Ok r ->
  Timestamp r = row_Timestamp (fst rp)
  /\ ProcessName r = py_str (fst (snd rp))
  /\ py_float (snd (snd rp)) = Ok (Value r).
Proof.
  unfold long_row_of. destruct (py_float (snd (snd rp))) as [v|e]; simpl; [|discriminate].
  intros H. injection H as <-. simpl. auto.
Qed.

Lemma long_row_of_raise (rp : MainRow * (scalar * scalar)) (e : exn) :
  long_row_of rp = Raise e -> e = ValueError "could not convert string to float".
Proof.
  unfold long_row_of, py_float. destruct (snd (snd rp)) as [v|s]; simpl; [discriminate|].
  destruct (float_of_str s); simpl; [discriminate|]. now intros [= <-].
Qed.

(** C3, as the code has it: the reshaper emits exactly one long row
    (timestamp, [str] of the name, [float] of the value) per (table row, slot
    index) whose two columns exist and hold non-null cells, rows in table
    order and slots in index order, provided [float] accepts each such value;
    when it rejects one, the reshaper raises [ValueError].  Grouping a
    non-empty long table then gives exactly one row per (timestamp, name)
    among the rows whose timestamp is not [NaT], holding the sum of the
    values of that timestamp and name. *)
Theorem C3_reshape_then_sum (df_main : MainFrame) (prefix_name prefix_val : string)
    (count : nat) (val_col_name : string) :
  let slots := present_slots df_main prefix_name prefix_val count val_col_name in
  let extracted := extract_top_data df_main prefix_name prefix_val count val_col_name in
  ((forall rp, In rp slots -> exists v, py_float (snd (snd rp)) = Ok v) ->
   exists raw,
     extracted = Ok raw
     /\ Forall2 (fun rp r => Timestamp r = row_Timestamp (fst rp)
                             /\ ProcessName r = py_str (fst (snd rp))
                             /\ py_float (snd (snd rp)) = Ok (Value r)) slots raw)
  /\ (forall rp e, In rp slots -> py_float (snd (snd rp)) = Raise e ->
      extracted = Raise (ValueError "could not convert string to float"))
  /\ (forall raw, raw <> [] ->
      exists grouped,
        groupby_sum raw = Ok grouped
        /\ NoDup (map long_key grouped)
        /\ Forall (fun r => Timestamp r <> NaT) grouped
        /\ forall t n v,
             In {| Timestamp := At t; ProcessName := n; Value := v |} grouped
             <-> (exists r, In r raw /\ Timestamp r = At t /\ ProcessName r = n)
                 /\ v = vsum (map Value (filter (has_key (t, n)) raw))).
Proof.
  intros slots extracted. unfold extracted. rewrite extract_top_data_spec. fold slots.
  split; [|split].
  - intros Hok.
    destruct (map_res_ok long_row_of slots) as [raw [Hraw HF]].
    + intros rp Hin. destruct (Hok rp Hin) as [v Hv].
      unfold long_row_of. rewrite Hv. simpl. eauto.
    + exists raw. split; [exact Hraw|].
      eapply Forall2_impl; [|exact HF].
      intros rp r. apply long_row_of_ok.
  - intros rp e Hin He.
    apply map_res_raise_const with (x := rp) (e := e).
    + intros y e'. apply long_row_of_raise.
    + exact Hin.
    + unfold long_row_of. now rewrite He.
  - intros raw Hne. unfold groupby_sum.
    destruct raw as [|r0 raw0]; [contradiction|]. cbn [is_nil].
    set (raw := r0 :: raw0).
    destruct (group_keys_spec raw) as [Hnd Hin].
    set (keys := sort_values key_leb (nodup key_eq_dec (keys_of raw))) in *.
    eexists. split; [reflexivity|]. split; [|split].
    + rewrite map_map. apply Injective_map_NoDup; [|exact Hnd].
      intros [t1 n1] [t2 n2]. unfold long_key. simpl. congruence.
    + apply Forall_map, Forall_forall. intros k _. simpl. discriminate.
    + intros t n v. rewrite in_map_iff. split.
      * intros [[t' n'] [Heq Hk]]. simpl in Heq. injection Heq as -> -> <-.
        split; [|reflexivity].
        apply Hin in Hk. destruct Hk as [r [Hr Hkey]]. exists r.
        split; [exact Hr|]. apply has_key_iff. unfold has_key. rewrite Hkey.
        now destruct (key_eq_dec (t, n) (t, n)).
      * intros [[r [Hr [Ht Hn]]] ->]. exists (t, n). split; [reflexivity|].
        apply Hin. exists r. split; [exact Hr|]. unfold row_key. now rewrite Ht, Hn.
Qed.

End Reshaper.

(** ** The top-K selector (lines 77-82) *)

Section Selector.
Context {Vs : Values} {L : Library}.

Lemma mem_In (x : string) (xs : list string) : mem x xs = true <-> In x xs.
Proof.
  unfold mem. rewrite existsb_exists. split.
  - intros [y [Hy He]]. apply String.eqb_eq in He. now subst.
  - intros H. exists x. split; [exact H | apply String.eqb_refl].
Qed.

Lemma vle_refl (a : V) : vle a a = true.
Proof. now destruct (vle_total a a). Qed.

Lemma usage_geb_total : total_leb usage_geb.
Proof. intros a b. unfold usage_geb. destruct (vle_total (snd a) (snd b)); auto. Qed.

Lemma usage_geb_trans : trans_leb usage_geb.
Proof.
  intros a b c Hab Hbc. unfold usage_geb in *.
  now apply vle_trans with (snd b).
Qed.

Lemma fold_vmax_spec (vs : list V) (v0 : V) :
  (fold_left vmax vs v0 = v0 \/ In (fold_left vmax vs v0) vs)
  /\ vle v0 (fold_left vmax vs v0) = true
  /\ forall v, In v vs -> vle v (fold_left vmax vs v0) = true.
Proof.
  revert v0. induction vs as [|v vs IH]; intros v0; simpl.
  - split; [now left|]. split; [apply vle_refl | contradiction].
  - destruct (IH (vmax v0 v)) as [Hin [Hle Hall]].
    assert (Hstep : vle v0 (vmax v0 v) = true /\ vle v (vmax v0 v) = true).
    { unfold vmax. destruct (vle v v0) eqn:E.
      - split; [apply vle_refl | exact E].
      - split; [|apply vle_refl].
        destruct (vle_total v v0) as [H|H]; [congruence | exact H]. }
    destruct Hstep as [H0 H1]. split; [|split].
    + destruct Hin as [Heq|Hin]; [|now right; right].
      rewrite Heq. unfold vmax. destruct (vle v v0); [now left | now right; left].
    + now apply vle_trans with (vmax v0 v).
    + intros w [<-|Hw]; [now apply vle_trans with (vmax v0 v) | now apply Hall].
Qed.

Lemma max_of_spec (vs : list V) (m : V) :
  max_of vs = Some m -> In m vs /\ forall v, In v vs -> vle v m = true.
Proof.
  destruct vs as [|v vs]; simpl; [discriminate|].
  intros H. injection H as <-.
  destruct (fold_vmax_spec vs v) as [Hin [Hle Hall]]. split.
  - destruct Hin as [->|Hin]; [now left | now right].
  - intros w [<-|Hw]; [exact Hle | now apply Hall].
Qed.

Lemma in_named (n : string) (r : LongRow) (df : list LongRow) :
  In r (filter (named n) df) <-> In r df /\ ProcessName r = n.
Proof. rewrite filter_In. unfold named. now rewrite String.eqb_eq. Qed.

Lemma in_names_of (n : string) (df : list LongRow) :
  In n (names_of df) <-> exists r, In r df /\ ProcessName r = n.
Proof.
  unfold names_of.
  assert (H : In n (nodup string_dec (map ProcessName df))
              <-> exists r, In r df /\ ProcessName r = n).
  { rewrite nodup_In, in_map_iff. split; intros [r [H1 H2]]; exists r; auto. }
  rewrite <- H. split.
  - apply Permutation_in, sort_values_perm.
  - apply Permutation_in, Permutation_sym, sort_values_perm.
Qed.

Lemma NoDup_names_of (df : list LongRow) : NoDup (names_of df).
Proof.
  unfold names_of. eapply Permutation_NoDup.
  - apply Permutation_sym, sort_values_perm.
  - apply NoDup_nodup.
Qed.

Lemma groupby_max_fst (df : list LongRow) : map fst (groupby_max df) = names_of df.
Proof.
  unfold groupby_max. fold (names_of df).
  assert (H : forall n, In n (names_of df) -> exists r, In r df /\ ProcessName r = n)
    by (intros n; apply in_names_of).
  induction (names_of df) as [|n l IH]; simpl; [reflexivity|].
  rewrite map_app, IH by (intros n' Hn'; apply H; now right). clear IH.
  destruct (H n (or_introl eq_refl)) as [r Hr].
  apply in_named in Hr.
  destruct (filter (named n) df) as [|r0 rs]; [contradiction|]. reflexivity.
Qed.

Lemma groupby_max_in (n : string) (m : V) (df : list LongRow) :
  In (n, m) (groupby_max df) -> max_of (map Value (filter (named n) df)) = Some m.
Proof.
  unfold groupby_max. rewrite in_flat_map. intros [n' [_ Hin]].
  destruct (max_of (map Value (filter (named n') df))) as [m'|] eqn:E; [|contradiction].
  destruct Hin as [Heq|[]]. injection Heq as -> ->. exact E.
Qed.

(** The ranking lists every distinct name once, with the largest of the
    values observed for it, largest maximum first. *)
Lemma ranking_spec (df : list LongRow) :
  NoDup (map fst (ranking df))
  /\ (forall n, In n (map fst (ranking df)) <-> exists r, In r df /\ ProcessName r = n)
  /\ (forall n m, In (n, m) (ranking df) ->
        (exists r, In r df /\ ProcessName r = n /\ Value r = m)
        /\ forall r, In r df -> ProcessName r = n -> vle (Value r) m = true)
  /\ StronglySorted (fun a b => vle (snd b) (snd a) = true) (ranking df).
Proof.
  assert (Hperm : Permutation (map fst (ranking df)) (names_of df)).
  { rewrite <- groupby_max_fst. apply Permutation_map, sort_values_perm. }
  split; [|split; [|split]].
  - eapply Permutation_NoDup; [apply Permutation_sym, Hperm | apply NoDup_names_of].
  - intros n. rewrite <- in_names_of. split.
    + apply Permutation_in, Hperm.
    + apply Permutation_in, Permutation_sym, Hperm.
  - intros n m Hin.
    assert (Hg : In (n, m) (groupby_max df))
      by (revert Hin; apply Permutation_in, sort_values_perm).
    apply groupby_max_in, max_of_spec in Hg. destruct Hg as [Hm Hub]. split.
    + apply in_map_iff in Hm. destruct Hm as [r [Hv Hr]].
      apply in_named in Hr. exists r. tauto.
    + intros r Hr Hn. apply Hub, in_map, in_named. tauto.
  - apply (sort_values_sorted (le := usage_geb)).
    + apply usage_geb_total.
    + apply usage_geb_trans.
Qed.

Lemma head_of_nat (A : Type) (K : nat) (l : list A) : head (Z.of_nat K) l = firstn K l.
Proof.
  unfold head. destruct (Z.leb_spec 0 (Z.of_nat K)); [|lia].
  now rewrite Nat2Z.id.
Qed.

(** On a non-empty table and a count [K], the selection is the first [K]
    names of the ranking and the rows bearing one of them. *)
Lemma filter_top_consumers_spec (df : list LongRow) (K : nat) :
  df <> [] ->
  filter_top_consumers df (Z.of_nat K)
  = Selected (filter (fun r => mem (ProcessName r) (firstn K (map fst (ranking df)))) df)
             (firstn K (map fst (ranking df))).
Proof.
  intros Hne. unfold filter_top_consumers.
  destruct df as [|r df']; [contradiction|]. cbn [is_nil]. cbv zeta.
  fold (ranking (r :: df')). now rewrite head_of_nat, firstn_map.
Qed.

(** C4: on a non-empty long table the selector takes, for each distinct
    process name, the largest value observed for it over all rows (a value of
    one of its rows, not below any other), orders the names by that maximum,
    largest first, selects the first [K] of them, and returns with them the
    rows of the input, in input order, whose name is selected. *)
Theorem C4_top_k_by_peak (df : list LongRow) (K : nat) :
  df <> [] ->
  exists max_usage : list (string * V),
    NoDup (map fst max_usage)
    /\ (forall n, In n (map fst max_usage) <-> exists r, In r df /\ ProcessName r = n)
    /\ (forall n m, In (n, m) max_usage ->
          (exists r, In r df /\ ProcessName r = n /\ Value r = m)
          /\ forall r, In r df -> ProcessName r = n -> vle (Value r) m = true)
    /\ StronglySorted (fun a b => vle (snd b) (snd a) = true) max_usage
    /\ exists df_filtered,
         filter_top_consumers df (Z.of_nat K)
         = Selected df_filtered (firstn K (map fst max_usage))
         /\ df_filtered
            = filter (fun r => mem (ProcessName r) (firstn K (map fst max_usage))) df
         /\ forall r, In r df_filtered
                      <-> In r df /\ In (ProcessName r) (firstn K (map fst max_usage)).
Proof.
  intros Hne. exists (ranking df).
  destruct (ranking_spec df) as [H1 [H2 [H3 H4]]].
  repeat (split; [assumption|]).
  eexists. split; [now apply filter_top_consumers_spec|]. split; [reflexivity|].
  intros r. now rewrite filter_In, mem_In.
Qed.

End Selector.

Section SelectorAlgebra.
Context {Vs : Values} {L : Library}.

Lemma in_firstn (A : Type) (n : nat) (x : A) (l : list A) :
  In x (firstn n l) -> In x l.
Proof.
  intros H. rewrite <- (firstn_skipn n l). apply in_or_app. now left.
Qed.

Lemma NoDup_firstn (A : Type) (n : nat) (l : list A) : NoDup l -> NoDup (firstn n l).
Proof.
  intros H. rewrite <- (firstn_skipn n l) in H. now apply NoDup_app_remove_r in H.
Qed.

Lemma filter_all (A : Type) (p : A -> bool) (l : list A) :
  (forall x, In x l -> p x = true) -> filter p l = l.
Proof.
  induction l as [|x l IH]; intros H; simpl; [reflexivity|].
  rewrite (H x (or_introl eq_refl)). f_equal. apply IH. intros y Hy. apply H. now right.
Qed.

Lemma ranking_names_perm (df : list LongRow) :
  Permutation (map fst (ranking df)) (nodup string_dec (map ProcessName df)).
Proof.
  apply Permutation_trans with (names_of df).
  - rewrite <- groupby_max_fst. apply Permutation_map, sort_values_perm.
  - apply sort_values_perm.
Qed.

(** With at least as many places as distinct names, a non-empty table is
    returned whole, together with all of its names. *)
Lemma selection_keeps_all (df : list LongRow) (K : nat) :
  df <> [] ->
  (List.length (nodup string_dec (map ProcessName df)) <= K)%nat ->
  exists top_consumers,
    filter_top_consumers df (Z.of_nat K) = Selected df top_consumers
    /\ Permutation top_consumers (nodup string_dec (map ProcessName df)).
Proof.
  intros Hne HK. exists (map fst (ranking df)).
  split; [|apply ranking_names_perm].
  rewrite filter_top_consumers_spec by exact Hne.
  rewrite firstn_all2
    by (rewrite (Permutation_length (ranking_names_perm df)); exact HK).
  f_equal. apply filter_all. intros r Hr. apply mem_In.
  destruct (ranking_spec df) as [_ [Hnames _]]. apply Hnames. now exists r.
Qed.

(** Selecting again from a selection made with [K >= 1] places changes
    neither the table nor the set of names. *)
Lemma selection_idempotent (df : list LongRow) (K : nat) :
  df <> [] -> (1 <= K)%nat ->
  exists df_filtered top_consumers top_consumers',
    filter_top_consumers df (Z.of_nat K) = Selected df_filtered top_consumers
    /\ filter_top_consumers df_filtered (Z.of_nat K)
       = Selected df_filtered top_consumers'
    /\ Permutation top_consumers top_consumers'.
Proof.
  intros Hne HK.
  destruct (ranking_spec df) as [Hnd [Hnames _]].
  set (t := firstn K (map fst (ranking df))).
  set (d := filter (fun r => mem (ProcessName r) t) df).
  assert (Hd : forall r, In r d <-> In r df /\ In (ProcessName r) t).
  { intros r. unfold d. now rewrite filter_In, mem_In. }
  assert (Hrow : forall n, In n t -> exists r, In r d /\ ProcessName r = n).
  { intros n Hn. destruct (proj1 (Hnames n) (in_firstn _ _ _ Hn)) as [r [Hr Hrn]].
    exists r. split; [|exact Hrn]. apply Hd. rewrite Hrn. auto. }
  assert (Ht : exists n0, In n0 t).
  { assert (Hin : exists n, In n (map fst (ranking df))).
    { destruct df as [|r0 df']; [contradiction|].
      exists (ProcessName r0). apply Hnames. exists r0. split; [now left | reflexivity]. }
    unfold t. destruct Hin as [n Hin]. revert Hin.
    destruct (map fst (ranking df)) as [|n0 ns]; [contradiction|]. intros _.
    destruct K as [|K']; [lia|]. exists n0. now left. }
  assert (Hdne : d <> []).
  { destruct Ht as [n0 Hn0]. destruct (Hrow n0 Hn0) as [r [Hr _]].
    intros Hnil. rewrite Hnil in Hr. contradiction. }
  assert (Hperm : Permutation t (nodup string_dec (map ProcessName d))).
  { apply NoDup_Permutation.
    - now apply NoDup_firstn.
    - apply NoDup_nodup.
    - intros n. rewrite nodup_In, in_map_iff. split.
      + intros Hn. destruct (Hrow n Hn) as [r [Hr Hrn]]. now exists r.
      + intros [r [Hrn Hr]]. apply Hd in Hr. now rewrite <- Hrn. }
  exists d, t.
  destruct (selection_keeps_all (df := d) (K := K) Hdne) as [t' [Hsel Ht']].
  - rewrite <- (Permutation_length Hperm). unfold t. apply firstn_le_length.
  - exists t'. split; [now apply filter_top_consumers_spec|]. split; [exact Hsel|].
    apply Permutation_trans with (nodup string_dec (map ProcessName d));
      [exact Hperm | now apply Permutation_sym].
Qed.

(** The length of a selection is bounded by a non-negative [top_n]. *)
Lemma selected_length (df df_filtered : list LongRow) (top_n : Z)
    (top_consumers : list string) :
  0 <= top_n ->
  filter_top_consumers df top_n = Selected df_filtered top_consumers ->
  (List.length top_consumers <= Z.to_nat top_n)%nat.
Proof.
  intros Hn. unfold filter_top_consumers.
  destruct (is_nil df); [discriminate|]. cbv zeta.
  intros H. injection H as _ <-.
  rewrite length_map. unfold head.
  destruct (Z.leb_spec 0 top_n); [|lia]. apply firstn_le_length.
Qed.

End SelectorAlgebra.

(** ** The figure and the outcome of a run (lines 84-152) *)

Section Report.
Context {Vs : Values} {L : Library}.

Lemma process_traces_row (row row' : nat) (label : string) (df : list LongRow)
    (consumers : list string) :
  filter (fun tr => Nat.eqb (t_row tr) row') (process_traces row label df consumers)
  = if Nat.eqb row row' then process_traces row label df consumers else [].
Proof.
  unfold process_traces.
  destruct (is_nil df); [now destruct (Nat.eqb row row')|].
  induction consumers as [|n ns IH]; simpl; [now destruct (Nat.eqb row row')|].
  rewrite IH. now destruct (Nat.eqb row row').
Qed.

Lemma process_traces_length (row : nat) (label : string) (df : list LongRow)
    (consumers : list string) :
  (List.length (process_traces row label df consumers) <= List.length consumers)%nat.
Proof.
  unfold process_traces. destruct (is_nil df); simpl; [lia|]. now rewrite length_map.
Qed.

(** In a computation known to succeed, the next column access succeeded. *)
Ltac column_ok :=
  match goal with
  | |- context [res_bind (main_column ?df ?c) _] =>
      destruct (main_column df c); cbn [res_bind]; [|discriminate]
  end.

(** What a successful [build_figure] went through: both long tables, both
    selections with their fixed [top_n], and the traces of rows 3 and 4. *)
Lemma build_figure_inv (df_main : MainFrame) (fig : figure) :
  build_figure df_main = Ok fig ->
  exists df_mem_raw df_mem df_handle_raw df_handle
         df_mem_filtered mem_consumers df_handle_filtered handle_consumers,
    extract_top_data df_main "TopMem" "TopMem" 10 "MB" = Ok df_mem_raw
    /\ groupby_sum df_mem_raw = Ok df_mem
    /\ extract_top_data df_main "TopHandle" "TopHandle" 5 "Count" = Ok df_handle_raw
    /\ groupby_sum df_handle_raw = Ok df_handle
    /\ filter_top_consumers df_mem 5 = Selected df_mem_filtered mem_consumers
    /\ filter_top_consumers df_handle 3 = Selected df_handle_filtered handle_consumers
    /\ row_traces 3 fig = process_traces 3 "Mem: " df_mem_filtered mem_consumers
    /\ row_traces 4 fig
       = process_traces 4 "Handles: " df_handle_filtered handle_consumers.
Proof.
  unfold build_figure.
  destruct (extract_top_data df_main "TopMem" "TopMem" 10 "MB") as [mr|e] eqn:E1;
    cbn [res_bind]; [|discriminate].
  destruct (groupby_sum mr) as [dm|e] eqn:E2; cbn [res_bind]; [|discriminate].
  destruct (extract_top_data df_main "TopHandle" "TopHandle" 5 "Count") as [hr|e] eqn:E3;
    cbn [res_bind]; [|discriminate].
  destruct (groupby_sum hr) as [dh|e] eqn:E4; cbn [res_bind]; [|discriminate].
  destruct (filter_top_consumers dm 5) as [b|md mt] eqn:E5; cbn [unpack2 res_bind];
    [discriminate|].
  destruct (filter_top_consumers dh 3) as [b|hd ht] eqn:E6; cbn [unpack2 res_bind];
    [discriminate|].
  do 4 column_ok.
  intros H. injection H as <-.
  exists mr, dm, hr, dh, md, mt, hd, ht. cbn [fst snd].
  repeat split; try assumption;
    unfold row_traces; cbn [filter t_row Nat.eqb];
    rewrite filter_app, !process_traces_row; cbn [Nat.eqb app];
    now rewrite ?app_nil_r.
Qed.

(** C10: whenever a run writes the report, chart row 3 holds the traces of
    the memory selection made with [top_n = 5] and chart row 4 those of the
    handle selection made with [top_n = 3], so row 3 has at most 5 series and
    row 4 at most 3. *)
Theorem C10_series_per_row (dir : Directory) (fx : effects) (file : string)
    (fig : figure) :
  written fx = None ->
  written (snd (generate_report dir fx)) = Some (file, fig) ->
  (exists df_mem df_handle df_mem_filtered mem_consumers
          df_handle_filtered handle_consumers,
      filter_top_consumers df_mem 5 = Selected df_mem_filtered mem_consumers
      /\ filter_top_consumers df_handle 3 = Selected df_handle_filtered handle_consumers
      /\ row_traces 3 fig = process_traces 3 "Mem: " df_mem_filtered mem_consumers
      /\ row_traces 4 fig
         = process_traces 4 "Handles: " df_handle_filtered handle_consumers)
  /\ (List.length (row_traces 3 fig) <= 5)%nat
  /\ (List.length (row_traces 4 fig) <= 3)%nat.
Proof.
  intros Hnone. rewrite generate_report_spec.
  destruct (glob dir) as [|g gs]; [simpl; congruence|]. cbv zeta.
  destruct (valid_tables _ _) as [|d ds]; [simpl; congruence|].
  destruct (figure_of (d :: ds)) as [fig'|e] eqn:Hfig; [|simpl; congruence].
  cbn [snd written]. intros H. injection H as _ <-.
  unfold figure_of in Hfig.
  destruct (coerce_and_sort (concat (d :: ds))) as [m|e]; [|discriminate].
  cbn [res_bind] in Hfig.
  destruct (build_figure_inv _ Hfig)
    as (mr & dm & hr & dh & md & mt & hd & ht & _ & _ & _ & _ & E5 & E6 & R3 & R4).
  split; [exists dm, dh, md, mt, hd, ht; auto|].
  rewrite R3, R4. split.
  - eapply Nat.le_trans; [apply process_traces_length|].
    apply selected_length in E5; [exact E5 | lia].
  - eapply Nat.le_trans; [apply process_traces_length|].
    apply selected_length in E6; [exact E6 | lia].
Qed.

End Report.

(** ** How a run ends *)

Section Outcome.
Context {Vs : Values} {L : Library}.

Lemma figure_of_no_timestamp (all_dfs : list DataFrame) :
  has_column "Timestamp" (concat all_dfs) = false ->
  figure_of all_dfs = Raise (KeyError "Timestamp").
Proof.
  intros H. unfold figure_of, coerce_and_sort, get_column. now rewrite H.
Qed.

Lemma figure_of_bad_timestamp (all_dfs : list DataFrame) (col : list (cell V)) :
  get_column (concat all_dfs) "Timestamp" = Ok col ->
  to_datetime col = None ->
  figure_of all_dfs = Raise (ValueError "to_datetime").
Proof.
  intros Hcol Hts. unfold figure_of, coerce_and_sort. rewrite Hcol.
  cbn [res_bind]. now rewrite Hts.
Qed.

Lemma figure_of_bad_value (all_dfs : list DataFrame) (df_main : MainFrame)
    (rp : MainRow * (scalar * scalar)) (e : exn) :
  coerce_and_sort (concat all_dfs) = Ok df_main ->
  In rp (present_slots df_main "TopMem" "TopMem" 10 "MB") ->
  py_float (snd (snd rp)) = Raise e ->
  figure_of all_dfs = Raise (ValueError "could not convert string to float").
Proof.
  intros Hm Hin He. unfold figure_of. rewrite Hm. cbn [res_bind].
  unfold build_figure. rewrite extract_top_data_spec.
  assert (Hraise : map_res long_row_of (present_slots df_main "TopMem" "TopMem" 10 "MB")
                   = Raise (ValueError "could not convert string to float")).
  { apply map_res_raise_const with (x := rp) (e := e).
    - intros y e'. apply long_row_of_raise.
    - exact Hin.
    - unfold long_row_of. now rewrite He. }
  now rewrite Hraise.
Qed.

(** C2, as the code has it: only the reading of a file is guarded.  A file
    whose read raises is reported and the loop goes on, so loading never
    raises; with no matching file, or no table surviving validation, the run
    returns normally and writes nothing.  Once a table has survived, an
    exception raised on the way to the figure leaves [generate_report]
    unhandled and nothing is written, and the report is written exactly when
    none is raised; a merged table without a [Timestamp] column, a timestamp
    column that [pd.to_datetime] rejects and a present memory-slot value that
    [float] rejects each raise. *)
Theorem C2_only_reads_are_guarded (dir : Directory) (fx : effects) :
  let fs := isort String.leb (glob dir) in
  let all_dfs := valid_tables (read_csv dir) fs in
  let run := generate_report dir fx in
  (forall f e rest acc fx',
      read_csv dir f = ReadError e ->
      load_all (read_csv dir) (f :: rest) acc fx'
      = load_all (read_csv dir) rest acc (printed fx' [ErrorReading f e]))
  /\ (forall acc fx', fst (load_all (read_csv dir) fs acc fx') = Ok (acc ++ all_dfs))
  /\ (glob dir = [] \/ all_dfs = [] ->
      fst run = Ok tt /\ written (snd run) = written fx)
  /\ (glob dir <> [] -> all_dfs <> [] ->
      match figure_of all_dfs with
      | Ok fig => fst run = Ok tt /\ written (snd run) = Some (output_file, fig)
      | Raise e => fst run = Raise e /\ written (snd run) = written fx
      end)
  /\ (has_column "Timestamp" (concat all_dfs) = false ->
      figure_of all_dfs = Raise (KeyError "Timestamp"))
  /\ (forall col,
      get_column (concat all_dfs) "Timestamp" = Ok col -> to_datetime col = None ->
      figure_of all_dfs = Raise (ValueError "to_datetime"))
  /\ (forall df_main rp e,
      coerce_and_sort (concat all_dfs) = Ok df_main ->
      In rp (present_slots df_main "TopMem" "TopMem" 10 "MB") ->
      py_float (snd (snd rp)) = Raise e ->
      figure_of all_dfs = Raise (ValueError "could not convert string to float")).
Proof.
  intros fs all_dfs run.
  split; [|split; [|split; [|split; [|split; [|split]]]]].
  - intros f e rest acc fx' Hr. simpl. unfold bind at 1. now rewrite Hr.
  - intros acc fx'. now rewrite load_all_spec.
  - intros H. unfold run. rewrite generate_report_spec.
    destruct (glob dir) as [|g gs] eqn:Hg; [simpl; auto|].
    destruct H as [H|H]; [discriminate|]. cbv zeta. fold fs. fold all_dfs.
    rewrite H. simpl. auto.
  - intros Hg Hdfs. unfold run. rewrite generate_report_spec.
    destruct (glob dir) as [|g gs] eqn:Eg; [contradiction|]. cbv zeta.
    fold fs. fold all_dfs.
    destruct all_dfs as [|d ds]; [contradiction|].
    destruct (figure_of (d :: ds)); simpl; auto.
  - apply figure_of_no_timestamp.
  - apply figure_of_bad_timestamp.
  - apply figure_of_bad_value.
Qed.

End Outcome.

(** ** The selector at its edges: selecting twice, the empty table, a large [K] *)

Section SelectorEdges.
Context {Vs : Values} {L : Library}.

(** C5: selecting twice is selecting once.  For every long table, the empty
    one included, and every [K >= 1] (lines 85-86 pass 5 and 3), the
    selector applied to the table it returned, with the same [K], returns
    what it returned the first time: the same filtered table and the same
    names, up to the order of names of equal rank.  On a non-empty table
    both results are a table with its names; on the empty table both are the
    table alone. *)
Theorem C5_selection_idempotent (df : list LongRow) (K : nat) :
  (1 <= K)%nat ->
  let first := filter_top_consumers df (Z.of_nat K) in
  let second := filter_top_consumers (table_of first) (Z.of_nat K) in
  same_selection first second
  /\ table_of second = table_of first
  /\ (df <> [] ->
      exists names names',
        first = Selected (table_of first) names
        /\ second = Selected (table_of first) names'
        /\ forall n, In n names <-> In n names')
  /\ (df = [] -> first = Bare [] /\ second = Bare []).
Proof.
  intros HK first second.
  destruct df as [|r df].
  - subst first second. cbn. repeat split; try reflexivity. intros H. now contradiction H.
  - destruct (@selection_idempotent _ _ (r :: df) K) as (d & t & t' & H1 & H2 & Hp);
      [discriminate | exact HK|].
    subst first second. rewrite H1. cbn [table_of]. rewrite H2. cbn [same_selection table_of].
    repeat split; try assumption; try discriminate.
    intros _. exists t, t'. repeat split.
    + intros Hn. eapply Permutation_in; [exact Hp | exact Hn].
    + intros Hn. eapply Permutation_in; [apply Permutation_sym, Hp | exact Hn].
Qed.

(** C6, on the empty table: it has no process name, every [K >= 1] exceeds
    that, and the selector returns the table alone, which the two-target
    assignment of its callers cannot unpack. *)
Theorem C6_empty_table_returned_bare (K : nat) :
  List.length (nodup string_dec (map ProcessName (@nil LongRow))) = O
  /\ filter_top_consumers [] (Z.of_nat (S K)) = Bare []
  /\ unpack2 (filter_top_consumers [] (Z.of_nat (S K)))
     = Raise (ValueError "too many values to unpack (expected 2)").
Proof. repeat split. Qed.

(** X1: on a non-empty table and with [K >= 1], selecting twice with the
    same [K] returns the same table and the same set of names. *)
Theorem top_k_idempotent_from_one (df : list LongRow) (K : nat) :
  df <> [] -> (1 <= K)%nat ->
  exists df_filtered top_consumers top_consumers',
    filter_top_consumers df (Z.of_nat K) = Selected df_filtered top_consumers
    /\ filter_top_consumers df_filtered (Z.of_nat K)
       = Selected df_filtered top_consumers'
    /\ Permutation top_consumers top_consumers'.
Proof. apply selection_idempotent. Qed.

(** X2: on a non-empty table, a [K] above the number of distinct names
    returns the table itself and all of its names. *)
Theorem top_k_above_names_keeps_all (df : list LongRow) (K : nat) :
  df <> [] ->
  (List.length (nodup string_dec (map ProcessName df)) < K)%nat ->
  exists top_consumers,
    filter_top_consumers df (Z.of_nat K) = Selected df top_consumers
    /\ Permutation top_consumers (nodup string_dec (map ProcessName df)).
Proof. intros Hne HK. apply selection_keeps_all; [exact Hne | lia]. Qed.

End SelectorEdges.

(** ** The theorems on the concrete directories *)

(** C1, on logs that give the selector an empty long table.  A log without
    slot columns leaves the reshaper's list empty, and grouping the
    column-less table raises [KeyError]; a log whose rows all miss their
    timestamp leaves the grouped table empty, the selector returns it alone,
    and unpacking that into two targets raises [ValueError].  Either way the
    run ends in an exception and no file is written, although an empty
    filtered table would add no trace to its chart row. *)
Theorem C1_empty_long_table_ends_the_run :
  (forall (Vs : Values) (L : Library) (top_n : Z),
      filter_top_consumers [] top_n = Bare [])
  /\ (forall (Vs : Values) (df : list LongRow),
         unpack2 (Bare df) = Raise (ValueError "too many values to unpack (expected 2)"))
  /\ (forall (Vs : Values) (L : Library), groupby_sum [] = Raise (KeyError "Timestamp"))
  /\ (forall (Vs : Values) (row : nat) (label : string) (consumers : list string),
         process_traces row label [] consumers = [])
  /\ generate_report Ex.dir_counters no_effects
     = (Raise (KeyError "Timestamp"),
        {| console := [FoundLogFiles ["counters_log.csv"]]; written := None |})
  /\ generate_report Ex.dir_no_timestamps no_effects
     = (Raise (ValueError "too many values to unpack (expected 2)"),
        {| console := [FoundLogFiles ["no_timestamps_log.csv"]]; written := None |}).
Proof.
  split; [reflexivity|]. split; [reflexivity|]. split; [reflexivity|].
  split; [reflexivity|].
  split; vm_compute; reflexivity.
Qed.

(** A run that crashes after validation: the one file of each directory has
    the marker column and is loaded, then an unparseable timestamp, or a
    value that is not a number in a present slot, ends the run in
    [ValueError] with nothing written. *)
Lemma C2_counterexample :
  valid_tables (read_csv Ex.dir_bad_timestamp) (glob Ex.dir_bad_timestamp)
  = [Ex.bad_timestamp]
  /\ generate_report Ex.dir_bad_timestamp no_effects
     = (Raise (ValueError "to_datetime"),
        {| console := [FoundLogFiles ["bad_timestamp_log.csv"]]; written := None |})
  /\ valid_tables (read_csv Ex.dir_bad_value) (glob Ex.dir_bad_value) = [Ex.bad_value]
  /\ generate_report Ex.dir_bad_value no_effects
     = (Raise (ValueError "could not convert string to float"),
        {| console := [FoundLogFiles ["bad_value_log.csv"]]; written := None |}).
Proof. repeat split; vm_compute; reflexivity. Qed.

Lemma C2_witness :
  fst (generate_report Ex.dir_good no_effects) = Ok tt
  /\ written (snd (generate_report Ex.dir_good no_effects))
     = Some (output_file, figure_written Ex.dir_good)
  /\ fst (generate_report Ex.dir_bad_timestamp no_effects) = Raise (ValueError "to_datetime")
  /\ written (snd (generate_report Ex.dir_bad_timestamp no_effects)) = None.
Proof.
  destruct (C2_only_reads_are_guarded Ex.dir_good no_effects)
    as (_ & _ & _ & Hgood & _).
  destruct (C2_only_reads_are_guarded Ex.dir_bad_timestamp no_effects)
    as (_ & _ & _ & Hrun & _ & Hbad & _).
  assert (Hfig : figure_of (valid_tables (read_csv Ex.dir_bad_timestamp)
                              (isort String.leb (glob Ex.dir_bad_timestamp)))
                 = Raise (ValueError "to_datetime")).
  { eapply Hbad; [vm_compute; reflexivity | vm_compute; reflexivity]. }
  rewrite Hfig in Hrun.
  destruct Hrun as [H1 H2]; [vm_compute; discriminate | vm_compute; discriminate|].
  assert (Hok : figure_of (valid_tables (read_csv Ex.dir_good)
                             (isort String.leb (glob Ex.dir_good)))
                = Ok (figure_written Ex.dir_good)) by (vm_compute; reflexivity).
  rewrite Hok in Hgood.
  destruct Hgood as [H3 H4]; [vm_compute; discriminate | vm_compute; discriminate|].
  repeat split; assumption.
Defined.

(** A present, non-null pair for which no long row is emitted: slot 1 of the
    row holds the name [chrome.exe] and the value [12MB], and the reshaper
    raises instead of returning a table. *)
Lemma C3_counterexample :
  slot_pair Ex.header "TopMem" "TopMem" "MB"
            (hd {| row_Timestamp := NaT; row_cells := [] |} (main_rows Ex.bad_value_main)) 1
  = Some (SStr "chrome.exe", SStr "12MB")
  /\ extract_top_data Ex.bad_value_main "TopMem" "TopMem" 10 "MB"
     = Raise (ValueError "could not convert string to float").
Proof. split; vm_compute; reflexivity. Qed.

(** The scenario of the specification: [chrome.exe] in slots 1 and 2 of one
    snapshot with 10 and 15 gives two raw rows and one grouped row of 25. *)
Lemma C3_witness :
  exists raw,
    extract_top_data Ex.twice "TopMem" "TopMem" 10 "MB" = Ok raw
    /\ List.length raw = 2%nat
    /\ groupby_sum raw
       = Ok [ {| Timestamp := At 1709287200000000000;
                 ProcessName := "chrome.exe";
                 Value := inject_Z 25 |} ].
Proof.
  destruct (C3_reshape_then_sum Ex.twice "TopMem" "TopMem" 10 "MB")
    as (Hraw & _ & Hsum).
  destruct Hraw as [raw [Hraw _]].
  { intros rp Hin. vm_compute in Hin.
    destruct Hin as [<-|[<-|[]]]; eexists; reflexivity. }
  exists raw. split; [exact Hraw|].
  vm_compute in Hraw. injection Hraw as <-. split; [reflexivity|].
  destruct (Hsum [ Ex.obs 1709287200000000000 "chrome.exe" 10;
                   Ex.obs 1709287200000000000 "chrome.exe" 15 ])
    as (grouped & Hg & _); [discriminate|].
  vm_compute. reflexivity.
Defined.

Lemma C4_witness :
  exists max_usage df_filtered,
    StronglySorted (fun a b => vle (snd b) (snd a) = true) max_usage
    /\ firstn 2 (map fst max_usage) = ["code.exe"; "chrome.exe"]
    /\ filter_top_consumers Ex.usage 2 = Selected df_filtered ["code.exe"; "chrome.exe"]
    /\ List.length df_filtered = 4%nat.
Proof.
  destruct (C4_top_k_by_peak (df := Ex.usage) 2) as (mu & _ & _ & _ & Hs & d & Hsel & Hd & _).
  - discriminate.
  - assert (Hn : firstn 2 (map fst mu) = ["code.exe"; "chrome.exe"]).
    { assert (E : filter_top_consumers Ex.usage (Z.of_nat 2)
                  = Selected
                      (filter (fun r => mem (ProcessName r) ["code.exe"; "chrome.exe"])
                              Ex.usage)
                      ["code.exe"; "chrome.exe"]) by (vm_compute; reflexivity).
      rewrite Hsel in E. now injection E. }
    exists mu, d. split; [exact Hs|]. split; [exact Hn|]. split.
    + change 2 with (Z.of_nat 2). rewrite Hsel. now rewrite Hn.
    + rewrite Hd, Hn. vm_compute. reflexivity.
Defined.

Lemma C5_witness :
  filter_top_consumers Ex.usage 2
  = Selected (filter (fun r => mem (ProcessName r) ["code.exe"; "chrome.exe"]) Ex.usage)
             ["code.exe"; "chrome.exe"]
  /\ same_selection
       (filter_top_consumers Ex.usage 2)
       (filter_top_consumers (table_of (filter_top_consumers Ex.usage 2)) 2)
  /\ same_selection
       (filter_top_consumers [] 5)
       (filter_top_consumers (table_of (filter_top_consumers [] 5)) 5).
Proof.
  split; [vm_compute; reflexivity|]. split.
  - apply (@C5_selection_idempotent QValues RefLib Ex.usage 2). lia.
  - apply (@C5_selection_idempotent QValues RefLib [] 5). lia.
Defined.

(** A log that has the marker column and a timestamp that [pd.to_datetime]
    rejects: the file is loaded, the coercion raises, and the run ends
    without a merged table, sorted or not. *)
Lemma C7_counterexample :
  valid_tables (read_csv Ex.dir_bad_timestamp)
               (isort String.leb (glob Ex.dir_bad_timestamp))
  = [Ex.bad_timestamp]
  /\ has_column "NonPagedPoolMB" Ex.bad_timestamp = true
  /\ coerce_and_sort (concat [Ex.bad_timestamp]) = Raise (ValueError "to_datetime")
  /\ fst (generate_report Ex.dir_bad_timestamp no_effects)
     = Raise (ValueError "to_datetime").
Proof. repeat split; vm_compute; reflexivity. Qed.

Lemma C7_witness :
  total_rows (valid_tables (read_csv Ex.dir_good) (isort String.leb (glob Ex.dir_good)))
  = 6%nat
  /\ exists df_main,
       coerce_and_sort (concat [Ex.day1; Ex.day2]) = Ok df_main
       /\ List.length (main_rows df_main) = 6%nat
       /\ Permutation (map row_cells (main_rows df_main)) (data Ex.day1 ++ data Ex.day2)
       /\ map row_Timestamp (main_rows df_main)
          = [ At 1709287200000000000; At 1709287500000000000; At 1709287800000000000;
              At 1709373600000000000; At 1709373900000000000; At 1709374200000000000 ]
       /\ StronglySorted (fun a b => dt_leb a b = true)
            (map row_Timestamp (main_rows df_main)).
Proof.
  split; [vm_compute; reflexivity|].
  destruct (C7_merged_rows_sorted Ex.dir_good) as (_ & _ & H); [vm_compute; discriminate|].
  specialize (H eq_refl).
  change (valid_tables (read_csv Ex.dir_good) (isort String.leb (glob Ex.dir_good)))
    with [Ex.day1; Ex.day2] in H.
  lazymatch type of H with
  | match ?t with _ => _ end => destruct t as [ts|] eqn:E
  end.
  - destruct H as (m & Hm & _ & _ & Hp & Hlen & Hs).
    exists m. split; [exact Hm|]. split; [exact Hlen|].
    vm_compute in E. injection E as <-.
    split; [|split; [|exact Hs]].
    + eapply Permutation_trans; [apply Permutation_map, Hp|].
      vm_compute. apply Permutation_refl.
    + vm_compute in Hm. injection Hm as <-. reflexivity.
  - vm_compute in E. discriminate E.
Defined.

Lemma C8_witness :
  fst (generate_report Ex.dir_empty no_effects) = Ok tt
  /\ console (snd (generate_report Ex.dir_empty no_effects))
     = [Say "No log files (*_log.csv) found in the current directory."]
  /\ written (snd (generate_report Ex.dir_empty no_effects)) = None.
Proof. apply (C8_no_log_files Ex.dir_empty no_effects). reflexivity. Defined.

Lemma C9_witness :
  In (Say "Skipping legacy_log.csv: Old format (missing NonPagedPoolMB)")
     (console (snd (generate_report Ex.dir_good no_effects)))
  /\ In Ex.day1 (valid_tables (read_csv Ex.dir_good)
                   (isort String.leb (glob Ex.dir_good)))
  /\ fst (generate_report Ex.dir_legacy no_effects) = Ok tt
  /\ console (snd (generate_report Ex.dir_legacy no_effects))
     = [ FoundLogFiles ["empty_log.csv"; "legacy_log.csv"];
         ErrorReading "empty_log.csv" "No columns to parse from file";
         Say "Skipping legacy_log.csv: Old format (missing NonPagedPoolMB)";
         Say "Could not read any valid data (New Format)." ]
  /\ written (snd (generate_report Ex.dir_legacy no_effects)) = None.
Proof.
  destruct (C9_legacy_files_skipped Ex.dir_good no_effects) as (_ & Hskip & Hkeep & _).
  destruct (C9_legacy_files_skipped Ex.dir_legacy no_effects) as (_ & _ & _ & Hhalt).
  split.
  { apply (Hskip "legacy_log.csv" Ex.legacy); [simpl; tauto | reflexivity | reflexivity]. }
  split.
  { apply (Hkeep "day1_log.csv" Ex.day1); [simpl; tauto | reflexivity | reflexivity]. }
  destruct Hhalt as (H1 & H2 & H3); [discriminate | reflexivity|].
  split; [exact H1|]. split; [|exact H3].
  rewrite H2. reflexivity.
Defined.

Lemma C10_witness :
  List.length (row_traces 3 (figure_written Ex.dir_good)) = 5%nat
  /\ List.length (row_traces 4 (figure_written Ex.dir_good)) = 3%nat
  /\ (List.length (row_traces 3 (figure_written Ex.dir_good)) <= 5)%nat
  /\ (List.length (row_traces 4 (figure_written Ex.dir_good)) <= 3)%nat.
Proof.
  split; [vm_compute; reflexivity|]. split; [vm_compute; reflexivity|].
  apply (C10_series_per_row Ex.dir_good no_effects (file := output_file)).
  - reflexivity.
  - vm_compute. reflexivity.
Defined.

Lemma top_k_idempotent_witness :
  exists df_filtered top_consumers top_consumers',
    filter_top_consumers Ex.usage 2 = Selected df_filtered top_consumers
    /\ filter_top_consumers df_filtered 2 = Selected df_filtered top_consumers'
    /\ Permutation top_consumers top_consumers'.
Proof. apply (top_k_idempotent_from_one (df := Ex.usage) (K := 2)); [discriminate | lia]. Defined.

Lemma top_k_above_names_witness :
  exists top_consumers,
    filter_top_consumers Ex.usage 4 = Selected Ex.usage top_consumers
    /\ Permutation top_consumers (nodup string_dec (map ProcessName Ex.usage)).
Proof.
  apply (top_k_above_names_keeps_all (df := Ex.usage) (K := 4)); [discriminate|].
  vm_compute. lia.
Defined.

(** ** Further properties: the order of file names *)

Lemma string_leb_cons (a b : ascii) (s t : string) :
  String.leb (String a s) (String b t)
  = match N.compare (N_of_ascii a) (N_of_ascii b) with
    | Lt => true
    | Eq => String.leb s t
    | Gt => false
    end.
Proof.
  unfold String.leb. simpl. unfold Ascii.compare.
  destruct (N.compare (N_of_ascii a) (N_of_ascii b)); reflexivity.
Qed.

Lemma string_leb_trans : trans_leb String.leb.
Proof.
  intros s1. induction s1 as [|a s1 IH]; intros s2 s3 H12 H23.
  - destruct s3; reflexivity.
  - destruct s2 as [|b s2]; [discriminate H12|].
    destruct s3 as [|c s3]; [discriminate H23|].
    rewrite string_leb_cons in *.
    destruct (N.compare_spec (N_of_ascii a) (N_of_ascii b)) as [Hab|Hab|Hab];
      try discriminate;
      destruct (N.compare_spec (N_of_ascii b) (N_of_ascii c)) as [Hbc|Hbc|Hbc];
      try discriminate;
      destruct (N.compare_spec (N_of_ascii a) (N_of_ascii c)) as [Hac|Hac|Hac];
      try reflexivity; try lia.
    now apply IH with s2.
Qed.

(** Two ordered arrangements of the same elements under an antisymmetric
    order are the same list. *)
Lemma sorted_perm_unique (A : Type) (le : A -> A -> bool) (l1 l2 : list A) :
  (forall a b, le a b = true -> le b a = true -> a = b) ->
  StronglySorted (fun a b => le a b = true) l1 ->
  StronglySorted (fun a b => le a b = true) l2 ->
  Permutation l1 l2 -> l1 = l2.
Proof.
  intros Hanti H1. revert l2.
  induction H1 as [|x l1 Hs1 IH Hx]; intros l2 H2 Hp.
  - now apply Permutation_nil in Hp.
  - destruct H2 as [|y l2 Hs2 Hy]; [now apply Permutation_sym, Permutation_nil in Hp|].
    assert (Hxy : x = y).
    { assert (Hin1 : In x (y :: l2)) by (eapply Permutation_in; [exact Hp | now left]).
      assert (Hin2 : In y (x :: l1))
        by (eapply Permutation_in; [apply Permutation_sym, Hp | now left]).
      destruct Hin1 as [E|Hin1]; [now symmetry|].
      destruct Hin2 as [E|Hin2]; [exact E|].
      apply Hanti.
      - rewrite Forall_forall in Hx. now apply Hx.
      - rewrite Forall_forall in Hy. now apply Hy. }
    subst y. f_equal. apply IH; [exact Hs2|].
    now apply Permutation_cons_inv with x.
Qed.

Lemma isort_names_perm (l1 l2 : list string) :
  Permutation l1 l2 -> isort String.leb l1 = isort String.leb l2.
Proof.
  intros Hp. apply sorted_perm_unique with (le := String.leb).
  - apply String.leb_antisym.
  - apply isort_sorted; [exact String.leb_total | exact string_leb_trans].
  - apply isort_sorted; [exact String.leb_total | exact string_leb_trans].
  - apply Permutation_trans with l1; [apply isort_perm|].
    apply Permutation_trans with l2; [exact Hp | apply Permutation_sym, isort_perm].
Qed.

Section FileOrder.
Context {Vs : Values} {L : Library}.

Lemma valid_tables_ext (read read' : string -> read_result) (fs : list string) :
  (forall f, read f = read' f) -> valid_tables read fs = valid_tables read' fs.
Proof.
  intros H. unfold valid_tables. apply flat_map_ext. intros f. now rewrite H.
Qed.

Lemma load_messages_ext (read read' : string -> read_result) (fs : list string) :
  (forall f, read f = read' f) -> load_messages read fs = load_messages read' fs.
Proof.
  intros H. unfold load_messages. apply flat_map_ext. intros f. now rewrite H.
Qed.

(** X3: the loading loop accounts for every file, once and in order.  It
    never raises and leaves the written file alone.  Its files have, one
    each and in the order of the names, an outcome that is either the table
    read from that very file, which has the marker column, or one line
    about that very file: the skip line when its table lacks the marker
    column, the error line when reading it failed.  The tables of these
    outcomes, in order, are what the loop appends to [all_dfs], and their
    lines, in order, are what it prints. *)
Theorem loader_accounts_for_every_file (read : string -> read_result)
    (log_files : list string) (all_dfs : list DataFrame) (fx : effects) :
  exists outcomes : list (DataFrame + message),
    Forall2 (fun f o =>
               match o with
               | inl df => read f = ReadOk df /\ has_column "NonPagedPoolMB" df = true
               | inr m =>
                   (exists df, read f = ReadOk df
                               /\ has_column "NonPagedPoolMB" df = false
                               /\ m = skip_message f)
                   \/ (exists e, read f = ReadError e /\ m = ErrorReading f e)
               end) log_files outcomes
    /\ load_all read log_files all_dfs fx
       = (Ok (all_dfs ++ tables_in outcomes),
          {| console := console fx ++ lines_in outcomes; written := written fx |}).
Proof.
  rewrite load_all_spec. unfold printed.
  induction log_files as [|f fs IH].
  - exists []. split; [constructor | reflexivity].
  - destruct IH as (os & Hall & Heq).
    injection Heq as Ht Hl. apply app_inv_head in Ht. apply app_inv_head in Hl.
    cbn [valid_tables load_messages flat_map]. fold (valid_tables read fs).
    fold (load_messages read fs). rewrite Ht, Hl.
    destruct (read f) as [e|df] eqn:Hr.
    + exists (inr (ErrorReading f e) :: os). split; [|reflexivity].
      constructor; [|exact Hall]. right. now exists e.
    + destruct (has_column "NonPagedPoolMB" df) eqn:Hm.
      * exists (inl df :: os). split; [|reflexivity].
        constructor; [|exact Hall]. now rewrite Hr.
      * exists (inr (skip_message f) :: os). split; [|reflexivity].
        constructor; [|exact Hall]. left. now exists df.
Qed.

(** X4: the run does not depend on the order in which [glob] lists the
    matching names: two directories that list the same names, in any order,
    and read each name alike give the same result, the same console and the
    same file. *)
Theorem run_independent_of_glob_order (dir dir' : Directory) (fx : effects) :
  Permutation (glob dir) (glob dir') ->
  (forall f, read_csv dir f = read_csv dir' f) ->
  generate_report dir fx = generate_report dir' fx.
Proof.
  intros Hp Hr. rewrite !generate_report_spec.
  pose proof (isort_names_perm Hp) as Hs.
  destruct (glob dir) as [|g gs]; destruct (glob dir') as [|g' gs'].
  - reflexivity.
  - now apply Permutation_nil_cons in Hp.
  - now apply Permutation_sym, Permutation_nil_cons in Hp.
  - cbv zeta. rewrite Hs.
    now rewrite (valid_tables_ext _ _ _ Hr), (load_messages_ext _ _ _ Hr).
Qed.

End FileOrder.

(** ** Further properties: the merged table *)

Section Merge.
Context {Vs : Values} {L : Library}.

Lemma index_of_None (c : string) (cols : list string) :
  index_of c cols = None <-> ~ In c cols.
Proof.
  induction cols as [|y cols IH]; simpl; [tauto|].
  destruct (String.eqb_spec c y) as [->|Hne].
  - split; [discriminate | intros H; exfalso; apply H; now left].
  - destruct (index_of c cols).
    + split; [discriminate|]. intros H. exfalso. apply H. right.
      destruct (in_dec string_dec c cols) as [Hin|Hnin]; [exact Hin|].
      now apply IH in Hnin.
    + split; [|reflexivity]. intros _ [E|Hin]; [now apply Hne|].
      now apply (proj1 IH).
Qed.

Lemma cell_at_absent (cols : list string) (r : list (cell V)) (c : string) :
  ~ In c cols -> cell_at cols r c = CNaN.
Proof.
  intros H. unfold cell_at. apply index_of_None in H. now rewrite H.
Qed.

(** A row rebuilt column by column is read back as it was built. *)
Lemma cell_at_map (f : string -> cell V) (cols : list string) (c : string) :
  In c cols -> cell_at cols (map f cols) c = f c.
Proof.
  unfold cell_at. induction cols as [|y cols IH]; intros Hin; [contradiction|].
  simpl. destruct (String.eqb_spec c y) as [->|Hne]; [reflexivity|].
  destruct Hin as [E|Hin]; [now subst|].
  specialize (IH Hin). destruct (index_of c cols) as [i|] eqn:E; [exact IH|].
  apply index_of_None in E. contradiction.
Qed.

Lemma add_columns_spec (cols acc : list string) :
  (forall c, In c (add_columns acc cols) <-> In c acc \/ In c cols)
  /\ (NoDup acc -> NoDup (add_columns acc cols)).
Proof.
  unfold add_columns. revert acc.
  induction cols as [|y cols IH]; intros acc; simpl.
  - split; [intros c; tauto | auto].
  - destruct (IH (if mem y acc then acc else acc ++ [y])) as [Hin Hnd].
    destruct (mem y acc) eqn:E.
    + apply mem_In in E. split; [|exact Hnd].
      intros c. rewrite Hin. split; [tauto|].
      intros [H|[<-|H]]; auto.
    + assert (Hy : ~ In y acc) by (intros H; apply mem_In in H; congruence).
      split.
      * intros c. rewrite Hin, in_app_iff. simpl. tauto.
      * intros Hacc. apply Hnd. apply NoDup_app; [exact Hacc | | ].
        -- constructor; [intros [] | constructor].
        -- intros a Ha [<-|[]]. contradiction.
Qed.

Lemma union_columns_spec (dfs : list DataFrame) :
  NoDup (union_columns dfs)
  /\ forall c, In c (union_columns dfs) <-> exists df, In df dfs /\ In c (columns df).
Proof.
  unfold union_columns.
  assert (H : forall acc, NoDup acc ->
            NoDup (fold_left (fun a df => add_columns a (columns df)) dfs acc)
            /\ forall c, In c (fold_left (fun a df => add_columns a (columns df)) dfs acc)
                         <-> In c acc \/ exists df, In df dfs /\ In c (columns df)).
  { induction dfs as [|d dfs IH]; intros acc Hacc; simpl.
    - split; [exact Hacc|]. intros c. split; [tauto|].
      intros [H|[df [[] _]]]. exact H.
    - destruct (add_columns_spec (columns d) acc) as [Hin Hnd].
      destruct (IH (add_columns acc (columns d)) (Hnd Hacc)) as [H1 H2].
      split; [exact H1|]. intros c. rewrite H2, Hin. split.
      + intros [[H|H]|[df [Hdf Hc]]]; [now left | right; exists d; auto |].
        right. exists df. auto.
      + intros [H|[df [[<-|Hdf] Hc]]]; [tauto | tauto |].
        right. exists df. auto. }
  destruct (H [] (NoDup_nil _)) as [H1 H2]. split; [exact H1|].
  intros c. rewrite H2. simpl. tauto.
Qed.

Lemma Forall2_map_l (A B C : Type) (P : B -> C -> Prop) (f : A -> B) (g : A -> C)
    (l : list A) :
  (forall a, In a l -> P (f a) (g a)) -> Forall2 P (map f l) (map g l).
Proof.
  induction l as [|a l IH]; intros H; simpl; constructor.
  - apply H. now left.
  - apply IH. intros x Hx. apply H. now right.
Qed.

(** X5: concatenation loses and invents nothing.  The merged header lists
    each column label once and holds exactly the labels of the files.  The
    merged rows are, one for one and in order, the rows of the files (files
    in order, the rows of a file in order): a merged row has one cell per
    merged column, and each column reads in it as it did in the row's own
    file, [NaN] where that file has no such column. *)
Theorem concat_keeps_cells (dfs : list DataFrame) :
  NoDup (columns (concat dfs))
  /\ (forall c, In c (columns (concat dfs))
                <-> exists df, In df dfs /\ In c (columns df))
  /\ Forall2 (fun merged src =>
                List.length merged = List.length (columns (concat dfs))
                /\ forall c,
                     cell_at (columns (concat dfs)) merged c
                     = if mem c (columns (fst src))
                       then cell_at (columns (fst src)) (snd src) c
                       else CNaN)
             (data (concat dfs)) (rows_with_table dfs).
Proof.
  destruct (union_columns_spec dfs) as [Hnd Hin].
  split; [exact Hnd|]. split; [exact Hin|].
  unfold concat, rows_with_table. cbn [data columns].
  assert (H : forall l, incl l dfs ->
            Forall2 (fun merged src =>
                       List.length merged = List.length (union_columns dfs)
                       /\ forall c,
                            cell_at (union_columns dfs) merged c
                            = if mem c (columns (fst src))
                              then cell_at (columns (fst src)) (snd src) c
                              else CNaN)
                    (flat_map (reindex (union_columns dfs)) l)
                    (flat_map (fun df => map (pair df) (data df)) l)).
  { induction l as [|df l IH]; intros Hl; simpl; [constructor|].
    apply Forall2_app.
    - unfold reindex. apply Forall2_map_l. intros r _. cbn [fst snd].
      split; [apply length_map|]. intros c.
      destruct (mem c (columns df)) eqn:Hc.
      + apply cell_at_map. apply Hin. exists df. split; [apply Hl; now left|].
        now apply mem_In.
      + destruct (in_dec string_dec c (union_columns dfs)) as [Hu|Hu].
        * rewrite cell_at_map by exact Hu. apply cell_at_absent.
          intros Hcd. apply mem_In in Hcd. congruence.
        * now apply cell_at_absent.
    - apply IH. intros x Hx. apply Hl. now right. }
  apply H, incl_refl.
Qed.

Lemma valid_tables_marker (read : string -> read_result) (fs : list string)
    (df : DataFrame) :
  In df (valid_tables read fs) -> In "NonPagedPoolMB" (columns df).
Proof.
  unfold valid_tables. rewrite in_flat_map. intros [f [_ Hin]].
  destruct (read f) as [e|df']; [contradiction|].
  destruct (has_column "NonPagedPoolMB" df') eqn:E; [|contradiction].
  destruct Hin as [<-|[]]. now apply mem_In.
Qed.

Lemma coerce_and_sort_inv (df : DataFrame) (m : MainFrame) :
  coerce_and_sort df = Ok m ->
  exists col ts,
    get_column df "Timestamp" = Ok col
    /\ to_datetime col = Some ts
    /\ main_columns m = columns df
    /\ Permutation (main_rows m)
         (map (fun p => {| row_Timestamp := fst p; row_cells := snd p |})
              (combine ts (data df))).
Proof.
  unfold coerce_and_sort.
  destruct (get_column df "Timestamp") as [col|e] eqn:Hcol; [|discriminate].
  cbn [res_bind]. destruct (to_datetime col) as [ts|] eqn:Hts; [|discriminate].
  intros H. injection H as <-. exists col, ts. cbn [main_columns main_rows].
  repeat split; try assumption. apply sort_values_perm.
Qed.

(** X6: sorting by timestamp moves whole rows.  When the coercion succeeds,
    the merged table keeps the header, and its rows are a rearrangement of
    the rows of the concatenation, each still paired with the timestamp
    [pd.to_datetime] gave for it. *)
Theorem sorting_keeps_rows (df : DataFrame) (m : MainFrame) :
  coerce_and_sort df = Ok m ->
  main_columns m = columns df
  /\ Permutation (map row_cells (main_rows m)) (data df)
  /\ exists col ts,
       get_column df "Timestamp" = Ok col
       /\ to_datetime col = Some ts
       /\ Permutation (map (fun r => (row_Timestamp r, row_cells r)) (main_rows m))
                      (combine ts (data df)).
Proof.
  intros H. destruct (coerce_and_sort_inv _ H) as (col & ts & Hcol & Hts & Hc & Hp).
  assert (Hlen : List.length ts = List.length (data df)).
  { rewrite (to_datetime_length _ Hts). now apply get_column_length in Hcol. }
  split; [exact Hc|]. split.
  - apply Permutation_trans
      with (map row_cells
              (map (fun p => {| row_Timestamp := fst p; row_cells := snd p |})
                   (combine ts (data df)))).
    + now apply Permutation_map.
    + rewrite map_map. cbn [row_cells].
      replace (map (fun x => snd x) (combine ts (data df))) with (data df);
        [apply Permutation_refl|].
      clear -Hlen. revert ts Hlen.
      induction (data df) as [|r rs IH]; intros [|t ts] Hlen; simpl in *;
        try reflexivity; try discriminate.
      f_equal. apply IH. now injection Hlen.
  - exists col, ts. split; [exact Hcol|]. split; [exact Hts|].
    apply Permutation_trans
      with (map (fun r => (row_Timestamp r, row_cells r))
              (map (fun p => {| row_Timestamp := fst p; row_cells := snd p |})
                   (combine ts (data df)))).
    + now apply Permutation_map.
    + rewrite map_map. cbn [row_Timestamp row_cells].
      rewrite (map_ext _ (fun p => p)) by (intros [a b]; reflexivity).
      rewrite map_id. apply Permutation_refl.
Qed.

End Merge.

(** ** Further properties: what a run can raise *)

Section Exceptions.
Context {Vs : Values} {L : Library}.

Lemma map_res_raise_inv (A B : Type) (f : A -> res B) (l : list A) (e : exn) :
  map_res f l = Raise e -> exists x, In x l /\ f x = Raise e.
Proof.
  induction l as [|x l IH]; simpl; [discriminate|].
  destruct (f x) as [y|e'] eqn:Hx; simpl.
  - destruct (map_res f l) as [ys|e'] eqn:Hl; simpl; [discriminate|].
    intros H. injection H as ->. destruct (IH eq_refl) as [z [Hz Hfz]].
    exists z. auto.
  - intros H. injection H as ->. exists x. auto.
Qed.

Lemma extract_top_data_raise (df_main : MainFrame) (pn pv : string) (count : nat)
    (unit_ : string) (e : exn) :
  extract_top_data df_main pn pv count unit_ = Raise e ->
  e = ValueError "could not convert string to float".
Proof.
  rewrite extract_top_data_spec. intros H.
  apply map_res_raise_inv in H. destruct H as [rp [_ H]].
  now apply long_row_of_raise in H.
Qed.

Lemma groupby_sum_raise (df : list LongRow) (e : exn) :
  groupby_sum df = Raise e -> e = KeyError "Timestamp" /\ df = [].
Proof.
  unfold groupby_sum. destruct df; simpl; [|discriminate].
  intros H. injection H as <-. auto.
Qed.

Lemma groupby_sum_ok (df g : list LongRow) : groupby_sum df = Ok g -> df <> [].
Proof. unfold groupby_sum. destruct df; simpl; [discriminate|]. discriminate. Qed.

Lemma unpack2_inv (s : selection) (d : list LongRow) (t : list string) :
  unpack2 s = Ok (d, t) -> s = Selected d t.
Proof. destruct s; simpl; [discriminate|]. now intros [= -> ->]. Qed.

Lemma unpack2_raise (s : selection) (e : exn) :
  unpack2 s = Raise e -> e = ValueError "too many values to unpack (expected 2)".
Proof. destruct s; simpl; [|discriminate]. now intros [= <-]. Qed.

Lemma long_tables_raise (df_main : MainFrame) (e : exn) :
  long_tables df_main = Raise e -> selection_error e.
Proof.
  unfold long_tables, selection_error.
  destruct (extract_top_data df_main "TopMem" "TopMem" 10 "MB") as [mr|e1] eqn:E1;
    cbn [res_bind].
  2: { intros H. injection H as <-. left. now apply extract_top_data_raise in E1. }
  destruct (groupby_sum mr) as [dm|e2] eqn:E2; cbn [res_bind].
  2: { intros H. injection H as <-. right. left. now apply groupby_sum_raise in E2. }
  destruct (extract_top_data df_main "TopHandle" "TopHandle" 5 "Count") as [hr|e3] eqn:E3;
    cbn [res_bind].
  2: { intros H. injection H as <-. left. now apply extract_top_data_raise in E3. }
  destruct (groupby_sum hr) as [dh|e4] eqn:E4; cbn [res_bind]; [discriminate|].
  intros H. injection H as <-. right. left. now apply groupby_sum_raise in E4.
Qed.

Lemma selections_raise (df_main : MainFrame) (e : exn) :
  selections df_main = Raise e -> selection_error e.
Proof.
  unfold selections.
  destruct (long_tables df_main) as [t|e0] eqn:E0; cbn [res_bind].
  2: { intros H. injection H as <-. now apply long_tables_raise in E0. }
  destruct (unpack2 (filter_top_consumers (fst t) 5)) as [a|e1] eqn:E1; cbn [res_bind].
  2: { intros H. injection H as <-. right. right. now apply unpack2_raise in E1. }
  destruct (unpack2 (filter_top_consumers (snd t) 3)) as [b|e2] eqn:E2; cbn [res_bind];
    [discriminate|].
  intros H. injection H as <-. right. right. now apply unpack2_raise in E2.
Qed.

(** [build_figure] is the two selections, then the four counter columns in
    the order they are read, then the traces. *)
Lemma build_figure_steps (df_main : MainFrame) :
  build_figure df_main =
  let* s := selections df_main in
  let* total := main_column df_main "TotalMB" in
  let* used := main_column df_main "UsedMB" in
  let* non_paged := main_column df_main "NonPagedPoolMB" in
  let* paged := main_column df_main "PagedPoolMB" in
  let x := map row_Timestamp (main_rows df_main) in
  Ok ([ {| t_row := 1; t_name := "總記憶體 (Total MB)"; t_x := x; t_y := total |};
        {| t_row := 1; t_name := "已用記憶體 (Used MB)"; t_x := x; t_y := used |};
        {| t_row := 2; t_name := "非分頁集區 (Non-Paged Pool) [關鍵]"; t_x := x;
           t_y := non_paged |};
        {| t_row := 2; t_name := "分頁集區 (Paged Pool)"; t_x := x; t_y := paged |} ]
      ++ process_traces 3 "Mem: " (fst (fst s)) (snd (fst s))
      ++ process_traces 4 "Handles: " (fst (snd s)) (snd (snd s))).
Proof.
  unfold build_figure, selections, long_tables.
  destruct (extract_top_data df_main "TopMem" "TopMem" 10 "MB"); cbn [res_bind];
    [|reflexivity].
  destruct (groupby_sum a); cbn [res_bind]; [|reflexivity].
  destruct (extract_top_data df_main "TopHandle" "TopHandle" 5 "Count"); cbn [res_bind];
    [|reflexivity].
  destruct (groupby_sum a1); cbn [res_bind fst snd]; [|reflexivity].
  destruct (unpack2 (filter_top_consumers a0 5)); cbn [res_bind]; [|reflexivity].
  destruct (unpack2 (filter_top_consumers a2 3)); cbn [res_bind]; reflexivity.
Qed.

Lemma main_column_spec (df_main : MainFrame) (c : string) :
  (mem c (main_columns df_main) = true
   /\ exists col, main_column df_main c = Ok col
                  /\ List.length col = List.length (main_rows df_main))
  \/ (mem c (main_columns df_main) = false
      /\ main_column df_main c = Raise (KeyError c)).
Proof.
  unfold main_column. destruct (mem c (main_columns df_main)); [left | right; auto].
  split; [reflexivity|]. eexists. split; [reflexivity|]. now rewrite length_map.
Qed.

(** X7: when both selections succeed, the figure is built exactly when the
    merged table has the four counter columns [TotalMB], [UsedMB],
    [NonPagedPoolMB] and [PagedPoolMB]; otherwise building it raises
    [KeyError] for the first of them, in that order, that is missing. *)
Theorem missing_counter_column_raises (df_main : MainFrame)
    (s : (list LongRow * list string) * (list LongRow * list string)) :
  selections df_main = Ok s ->
  match first_missing (main_columns df_main) with
  | Some c => build_figure df_main = Raise (KeyError c)
  | None => exists fig, build_figure df_main = Ok fig
  end.
Proof.
  intros Hs. rewrite build_figure_steps, Hs. cbn [res_bind].
  unfold first_missing, counter_columns. cbn [find].
  destruct (main_column_spec df_main "TotalMB") as [[-> [c1 [-> _]]]|[-> ->]];
    cbn [negb res_bind]; [|reflexivity].
  destruct (main_column_spec df_main "UsedMB") as [[-> [c2 [-> _]]]|[-> ->]];
    cbn [negb res_bind]; [|reflexivity].
  destruct (main_column_spec df_main "NonPagedPoolMB") as [[-> [c3 [-> _]]]|[-> ->]];
    cbn [negb res_bind]; [|reflexivity].
  destruct (main_column_spec df_main "PagedPoolMB") as [[-> [c4 [-> _]]]|[-> ->]];
    cbn [negb res_bind]; [|reflexivity].
  eexists. reflexivity.
Qed.

(** X8: the marker check makes the read at line 108 safe.  Every table the
    loader keeps has the column [NonPagedPoolMB], the concatenation keeps
    every label and the sort keeps the header.  So whenever a run has a
    merged table, that table has the column, reading it gives one cell per
    merged row, it is never the counter column found missing, and the run
    does not end in [KeyError] for it. *)
Theorem marker_column_always_readable (dir : Directory) (df_main : MainFrame) :
  coerce_and_sort (concat (valid_tables (read_csv dir) (isort String.leb (glob dir))))
  = Ok df_main ->
  In "NonPagedPoolMB" (main_columns df_main)
  /\ (exists col,
        main_column df_main "NonPagedPoolMB" = Ok col
        /\ List.length col = List.length (main_rows df_main))
  /\ first_missing (main_columns df_main) <> Some "NonPagedPoolMB"
  /\ forall fx, fst (generate_report dir fx) <> Raise (KeyError "NonPagedPoolMB").
Proof.
  intros Hm.
  set (all_dfs := valid_tables (read_csv dir) (isort String.leb (glob dir))) in *.
  destruct (coerce_and_sort_inv _ Hm) as (col & ts & Hcol & _ & Hc & _).
  assert (Hne : exists d, In d all_dfs).
  { unfold get_column, has_column in Hcol.
    destruct (mem "Timestamp" (columns (concat all_dfs))) eqn:E; [|discriminate].
    apply mem_In in E. apply (proj2 (union_columns_spec all_dfs)) in E.
    destruct E as [d [Hd _]]. now exists d. }
  destruct Hne as [d Hd].
  assert (Hin : In "NonPagedPoolMB" (main_columns df_main)).
  { rewrite Hc. apply (proj2 (union_columns_spec all_dfs)). exists d.
    split; [exact Hd|]. eapply valid_tables_marker. exact Hd. }
  assert (Hmem : mem "NonPagedPoolMB" (main_columns df_main) = true)
    by now apply mem_In.
  assert (Hread : exists c3, main_column df_main "NonPagedPoolMB" = Ok c3
                              /\ List.length c3 = List.length (main_rows df_main)).
  { destruct (main_column_spec df_main "NonPagedPoolMB") as [[_ H]|[H _]];
      [exact H | congruence]. }
  split; [exact Hin|]. split; [exact Hread|]. split.
  - intros H. apply find_some in H. destruct H as [_ H].
    rewrite Hmem in H. discriminate H.
  - intros fx. rewrite generate_report_spec.
    destruct (glob dir) as [|g gs] eqn:Hg; [discriminate|]. cbv zeta.
    fold all_dfs. destruct all_dfs as [|d0 ds] eqn:Hv; [discriminate|].
    destruct (figure_of (d0 :: ds)) as [fig|e] eqn:Hfig; [discriminate|].
    cbn [fst]. intros He. injection He as ->.
    unfold figure_of in Hfig. rewrite Hm in Hfig. cbn [res_bind] in Hfig.
    rewrite build_figure_steps in Hfig.
    destruct (selections df_main) as [s|e1] eqn:Hs; cbn [res_bind] in Hfig.
    2: { injection Hfig as ->. apply selections_raise in Hs.
         destruct Hs as [ Hs | [ Hs | Hs ] ]; discriminate Hs. }
    destruct (main_column_spec df_main "TotalMB") as [[_ [c1 [E1 _]]]|[_ E1]];
      rewrite E1 in Hfig; cbn [res_bind] in Hfig; [|discriminate Hfig].
    destruct (main_column_spec df_main "UsedMB") as [[_ [c2 [E2 _]]]|[_ E2]];
      rewrite E2 in Hfig; cbn [res_bind] in Hfig; [|discriminate Hfig].
    destruct Hread as [c3 [E3 _]]. rewrite E3 in Hfig. cbn [res_bind] in Hfig.
    destruct (main_column_spec df_main "PagedPoolMB") as [[_ [c4 [E4 _]]]|[_ E4]];
      rewrite E4 in Hfig; cbn [res_bind] in Hfig; discriminate Hfig.
Qed.

End Exceptions.

(** ** Further properties: the selection *)

Section Selection.
Context {Vs : Values} {L : Library}.

Lemma selected_inv (df d : list LongRow) (top_n : Z) (t : list string) :
  filter_top_consumers df top_n = Selected d t ->
  df <> []
  /\ t = map fst (head top_n (ranking df))
  /\ d = filter (fun r => mem (ProcessName r) t) df.
Proof.
  unfold filter_top_consumers. destruct df as [|r df']; cbn [is_nil]; [discriminate|].
  cbv zeta. fold (ranking (r :: df')). intros H. injection H as <- <-.
  repeat split. discriminate.
Qed.

(** [head] always returns a prefix. *)
Lemma head_prefix (A : Type) (n : Z) (l : list A) : exists j, head n l = firstn j l.
Proof. unfold head. destruct (0 <=? n); eexists; reflexivity. Qed.

Lemma head_length (A : Type) (n : Z) (l : list A) :
  Z.of_nat (List.length (head n l))
  = if 0 <=? n then Z.min n (Z.of_nat (List.length l))
    else Z.max 0 (Z.of_nat (List.length l) + n).
Proof.
  unfold head. destruct (Z.leb_spec 0 n); rewrite length_firstn; lia.
Qed.

Lemma StronglySorted_app_inv (A : Type) (R : A -> A -> Prop) (l1 l2 : list A) :
  StronglySorted R (l1 ++ l2) -> forall x y, In x l1 -> In y l2 -> R x y.
Proof.
  induction l1 as [|a l1 IH]; simpl; intros Hs x y Hx Hy; [contradiction|].
  apply StronglySorted_inv in Hs. destruct Hs as [Hs Ha].
  destruct Hx as [<-|Hx].
  - rewrite Forall_forall in Ha. apply Ha, in_or_app. now right.
  - now apply IH.
Qed.

Lemma ranking_peak (df : list LongRow) (n : string) (m : V) :
  In (n, m) (ranking df) -> peak df n = Some m.
Proof.
  intros H. unfold peak. apply groupby_max_in.
  revert H. apply Permutation_in, sort_values_perm.
Qed.

Lemma peak_has_row (df : list LongRow) (n : string) (m : V) :
  peak df n = Some m -> exists r, In r df /\ ProcessName r = n.
Proof.
  unfold peak. intros H. apply max_of_spec in H. destruct H as [H _].
  apply in_map_iff in H. destruct H as [r [_ Hr]]. apply in_named in Hr.
  now exists r.
Qed.

(** X9: the selection is by peak.  A selected name has a largest observed
    value at least as large as that of every name left out, whatever
    [top_n] is and however the sort orders equal peaks. *)
Theorem selection_dominates (df d : list LongRow) (top_n : Z) (t : list string)
    (n n' : string) (m m' : V) :
  filter_top_consumers df top_n = Selected d t ->
  In n t -> ~ In n' t ->
  peak df n = Some m -> peak df n' = Some m' ->
  vle m' m = true.
Proof.
  intros Hsel Hn Hn' Hm Hm'.
  destruct (selected_inv _ _ Hsel) as (_ & Ht & _).
  destruct (head_prefix top_n (ranking df)) as [j Hj]. rewrite Hj in Ht.
  destruct (ranking_spec df) as (_ & Hnames & _ & Hsorted).
  rewrite <- (firstn_skipn j (ranking df)) in Hsorted.
  assert (H1 : In (n, m) (firstn j (ranking df))).
  { rewrite Ht in Hn. apply in_map_iff in Hn. destruct Hn as [[n1 m1] [E H]].
    simpl in E. subst n1.
    assert (Hp : peak df n = Some m1) by (apply ranking_peak; now apply in_firstn in H).
    rewrite Hm in Hp. now injection Hp as ->. }
  assert (H2 : In (n', m') (skipn j (ranking df))).
  { assert (Hin : In n' (map fst (ranking df))) by (apply Hnames; eapply peak_has_row; eauto).
    apply in_map_iff in Hin. destruct Hin as [[n2 m2] [E H]]. simpl in E. subst n2.
    assert (Hp : peak df n' = Some m2) by now apply ranking_peak.
    rewrite Hm' in Hp. injection Hp as <-.
    rewrite <- (firstn_skipn j (ranking df)) in H. apply in_app_or in H.
    destruct H as [H|H]; [|exact H].
    exfalso. apply Hn'. rewrite Ht. apply in_map_iff. now exists (n', m'). }
  exact (StronglySorted_app_inv _ _ Hsorted _ _ H1 H2).
Qed.

(** X10: how many names are selected, for every integer [top_n]: the
    smaller of [top_n] and the number of distinct names when [top_n >= 0],
    and all but the last [-top_n] names of the ranking when it is negative.
    The selected names are distinct, each has a row in the filtered table,
    and the filtered table holds rows of the input only. *)
Theorem selection_size (df d : list LongRow) (top_n : Z) (t : list string) :
  filter_top_consumers df top_n = Selected d t ->
  Z.of_nat (List.length t)
  = (if 0 <=? top_n then Z.min top_n (Z.of_nat (List.length (distinct_names df)))
     else Z.max 0 (Z.of_nat (List.length (distinct_names df)) + top_n))
  /\ NoDup t
  /\ (forall n, In n t -> exists r, In r d /\ ProcessName r = n)
  /\ (forall r, In r d -> In r df /\ In (ProcessName r) t).
Proof.
  intros Hsel. destruct (selected_inv _ _ Hsel) as (_ & Ht & Hd).
  destruct (ranking_spec df) as (Hnd & Hnames & _).
  assert (Hrows : forall r, In r d <-> In r df /\ In (ProcessName r) t).
  { intros r. rewrite Hd, filter_In. now rewrite mem_In. }
  destruct (head_prefix top_n (ranking df)) as [j Hj].
  assert (Ht' : t = firstn j (map fst (ranking df))).
  { rewrite Ht, Hj. symmetry. apply firstn_map. }
  split; [|split; [|split]].
  - rewrite Ht, length_map, head_length.
    unfold distinct_names.
    rewrite <- (Permutation_length (ranking_names_perm df)). now rewrite length_map.
  - rewrite Ht'. now apply NoDup_firstn.
  - intros n Hn.
    assert (Hin : In n (map fst (ranking df))) by (rewrite Ht' in Hn; now apply in_firstn in Hn).
    apply Hnames in Hin. destruct Hin as [r [Hr Hrn]]. exists r.
    split; [|exact Hrn]. apply Hrows. rewrite Hrn. auto.
  - intros r. apply Hrows.
Qed.

End Selection.

(** ** Further properties: the long tables in time order *)

Section TimeOrder.
Context {Vs : Values} {L : Library}.

Lemma key_leb_total : total_leb key_leb.
Proof.
  intros [t1 n1] [t2 n2]. unfold key_leb. simpl.
  destruct (Z.ltb_spec t1 t2); [now left|].
  destruct (Z.ltb_spec t2 t1); [now right|].
  assert (t1 = t2) by lia. subst t2. rewrite Z.eqb_refl. apply String.leb_total.
Qed.

Lemma key_leb_trans : trans_leb key_leb.
Proof.
  intros [t1 n1] [t2 n2] [t3 n3]. unfold key_leb. simpl.
  destruct (Z.ltb_spec t1 t2), (Z.ltb_spec t2 t3), (Z.ltb_spec t1 t3);
    try reflexivity; try lia;
    destruct (Z.eqb_spec t1 t2), (Z.eqb_spec t2 t3), (Z.eqb_spec t1 t3);
    try discriminate; try lia; try reflexivity.
  apply string_leb_trans.
Qed.

Lemma StronglySorted_map_in (A B : Type) (R : A -> A -> Prop) (R' : B -> B -> Prop)
    (f : A -> B) (l : list A) :
  (forall a b, In a l -> In b l -> R a b -> R' (f a) (f b)) ->
  StronglySorted R l -> StronglySorted R' (map f l).
Proof.
  intros H Hs. induction Hs as [|a l Hs IH Ha]; simpl; constructor.
  - apply IH. intros x y Hx Hy. apply H; now right.
  - apply Forall_map. rewrite Forall_forall in *. intros b Hb.
    apply H; [now left | now right | now apply Ha].
Qed.

Lemma StronglySorted_filter (A : Type) (R : A -> A -> Prop) (p : A -> bool) (l : list A) :
  StronglySorted R l -> StronglySorted R (filter p l).
Proof.
  induction 1 as [|a l Hs IH Ha]; simpl; [constructor|].
  destruct (p a); [|exact IH]. constructor; [exact IH|].
  rewrite Forall_forall in *. intros b Hb. apply filter_In in Hb. now apply Ha.
Qed.

Lemma StronglySorted_NoDup (A : Type) (R : A -> A -> Prop) (l : list A) :
  StronglySorted R l -> NoDup l -> StronglySorted (fun a b => R a b /\ a <> b) l.
Proof.
  induction 1 as [|a l Hs IH Ha]; intros Hnd; constructor.
  - apply IH. now inversion Hnd.
  - inversion Hnd as [|? ? Hnin _]. subst.
    rewrite Forall_forall in *. intros b Hb. split; [now apply Ha|].
    intros ->. contradiction.
Qed.

Lemma filter_map_comm (A B : Type) (f : A -> B) (p : B -> bool) (l : list A) :
  filter p (map f l) = map f (filter (fun a => p (f a)) l).
Proof.
  induction l as [|a l IH]; simpl; [reflexivity|].
  destruct (p (f a)); simpl; now rewrite IH.
Qed.

Lemma filter_comm (A : Type) (p q : A -> bool) (l : list A) :
  filter p (filter q l) = filter q (filter p l).
Proof.
  induction l as [|a l IH]; simpl; [reflexivity|].
  destruct (p a) eqn:Ep, (q a) eqn:Eq; simpl; rewrite ?Ep, ?Eq, IH; reflexivity.
Qed.

Lemma before_dt_leb (a b : datetime) : before a b -> dt_leb a b = true.
Proof.
  destruct a as [|x], b as [|y]; simpl; try contradiction.
  intros H. apply Z.leb_le. lia.
Qed.

(** The grouped table is ordered by timestamp, then name; so the rows of
    one name are in strictly increasing time. *)
Lemma groupby_sum_times (raw g : list LongRow) (n : string) :
  groupby_sum raw = Ok g ->
  StronglySorted before (map Timestamp (filter (named n) g)).
Proof.
  unfold groupby_sum. destruct (is_nil raw); [discriminate|].
  intros H. injection H as <-.
  destruct (group_keys_spec raw) as [Hnd _].
  set (keys := sort_values key_leb (nodup key_eq_dec (keys_of raw))) in *.
  assert (Hs : StronglySorted (fun a b => key_leb a b = true /\ a <> b) keys).
  { apply StronglySorted_NoDup; [|exact Hnd].
    apply sort_values_sorted; [apply key_leb_total | apply key_leb_trans]. }
  rewrite filter_map_comm, map_map. cbn [Timestamp named ProcessName].
  apply StronglySorted_map_in
    with (R := fun a b : key => key_leb a b = true /\ a <> b);
    [|now apply StronglySorted_filter].
  intros [t1 n1] [t2 n2] H1 H2 [Hle Hne].
  apply filter_In in H1. apply filter_In in H2.
  destruct H1 as [_ H1]. destruct H2 as [_ H2].
  unfold named in H1, H2. cbn in H1, H2.
  apply String.eqb_eq in H1. apply String.eqb_eq in H2. subst n1 n2.
  unfold key_leb in Hle. simpl in *.
  destruct (Z.ltb_spec t1 t2); [assumption|].
  destruct (Z.eqb_spec t1 t2); [|discriminate]. subst t2. now contradiction Hne.
Qed.

Lemma StronglySorted_map_filter (A B : Type) (R : B -> B -> Prop) (f : A -> B)
    (p : A -> bool) (l : list A) :
  StronglySorted R (map f l) -> StronglySorted R (map f (filter p l)).
Proof.
  induction l as [|a l IH]; simpl; intros Hs; [constructor|].
  apply StronglySorted_inv in Hs. destruct Hs as [Hs Ha].
  destruct (p a); simpl; [|now apply IH].
  constructor; [now apply IH|].
  rewrite Forall_forall in *. intros b Hb. apply Ha.
  apply in_map_iff in Hb. destruct Hb as [x [<- Hx]].
  apply filter_In in Hx. apply in_map, Hx.
Qed.

Lemma process_traces_forall (P : trace -> Prop) (row : nat) (label : string)
    (d : list LongRow) (t : list string) :
  (forall n, In n t ->
     P {| t_row := row; t_name := label ++ n;
          t_x := map Timestamp (filter (named n) d);
          t_y := map (fun r => CNum (Value r)) (filter (named n) d) |}) ->
  Forall P (process_traces row label d t).
Proof.
  intros H. unfold process_traces. destruct (is_nil d); [constructor|].
  apply Forall_map, Forall_forall. exact H.
Qed.

(** What a successful [build_figure] returned: the four counter traces, then
    the traces of the two selections. *)
Lemma build_figure_ok (df_main : MainFrame) (fig : figure) :
  build_figure df_main = Ok fig ->
  exists df_mem_raw df_mem df_handle_raw df_handle md mt hd ht
         total used non_paged paged,
    extract_top_data df_main "TopMem" "TopMem" 10 "MB" = Ok df_mem_raw
    /\ groupby_sum df_mem_raw = Ok df_mem
    /\ extract_top_data df_main "TopHandle" "TopHandle" 5 "Count" = Ok df_handle_raw
    /\ groupby_sum df_handle_raw = Ok df_handle
    /\ filter_top_consumers df_mem 5 = Selected md mt
    /\ filter_top_consumers df_handle 3 = Selected hd ht
    /\ main_column df_main "TotalMB" = Ok total
    /\ main_column df_main "UsedMB" = Ok used
    /\ main_column df_main "NonPagedPoolMB" = Ok non_paged
    /\ main_column df_main "PagedPoolMB" = Ok paged
    /\ fig
       = [ {| t_row := 1; t_name := "總記憶體 (Total MB)";
              t_x := map row_Timestamp (main_rows df_main); t_y := total |};
           {| t_row := 1; t_name := "已用記憶體 (Used MB)";
              t_x := map row_Timestamp (main_rows df_main); t_y := used |};
           {| t_row := 2; t_name := "非分頁集區 (Non-Paged Pool) [關鍵]";
              t_x := map row_Timestamp (main_rows df_main); t_y := non_paged |};
           {| t_row := 2; t_name := "分頁集區 (Paged Pool)";
              t_x := map row_Timestamp (main_rows df_main); t_y := paged |} ]
         ++ process_traces 3 "Mem: " md mt ++ process_traces 4 "Handles: " hd ht.
Proof.
  unfold build_figure.
  destruct (extract_top_data df_main "TopMem" "TopMem" 10 "MB") as [mr|e] eqn:E1;
    cbn [res_bind]; [|discriminate].
  destruct (groupby_sum mr) as [dm|e] eqn:E2; cbn [res_bind]; [|discriminate].
  destruct (extract_top_data df_main "TopHandle" "TopHandle" 5 "Count") as [hr|e] eqn:E3;
    cbn [res_bind]; [|discriminate].
  destruct (groupby_sum hr) as [dh|e] eqn:E4; cbn [res_bind]; [|discriminate].
  destruct (filter_top_consumers dm 5) as [b|md mt] eqn:E5; cbn [unpack2 res_bind];
    [discriminate|].
  destruct (filter_top_consumers dh 3) as [b|hd ht] eqn:E6; cbn [unpack2 res_bind];
    [discriminate|].
  destruct (main_column df_main "TotalMB") as [c1|] eqn:C1; cbn [res_bind];
    [|discriminate].
  destruct (main_column df_main "UsedMB") as [c2|] eqn:C2; cbn [res_bind];
    [|discriminate].
  destruct (main_column df_main "NonPagedPoolMB") as [c3|] eqn:C3; cbn [res_bind];
    [|discriminate].
  destruct (main_column df_main "PagedPoolMB") as [c4|] eqn:C4; cbn [res_bind];
    [|discriminate].
  intros H. injection H as <-. cbn [fst snd].
  exists mr, dm, hr, dh, md, mt, hd, ht, c1, c2, c3, c4.
  repeat split; try assumption; reflexivity.
Qed.

Lemma selected_times (raw g d : list LongRow) (top_n : Z) (t : list string)
    (n : string) :
  groupby_sum raw = Ok g -> filter_top_consumers g top_n = Selected d t ->
  StronglySorted before (map Timestamp (filter (named n) d)).
Proof.
  intros Hg Hsel. destruct (selected_inv _ _ Hsel) as (_ & _ & ->).
  rewrite filter_comm. apply StronglySorted_map_filter.
  now apply groupby_sum_times with raw.
Qed.

Lemma before_sorted (l : list datetime) :
  StronglySorted before l -> StronglySorted (fun a b => dt_leb a b = true) l.
Proof.
  induction 1 as [|a l Hs IH Ha]; constructor; [exact IH|].
  eapply Forall_impl; [|exact Ha]. intros b. apply before_dt_leb.
Qed.

(** Every row of a grouped table stands at a point in time. *)
Lemma groupby_sum_points (raw g : list LongRow) (r : LongRow) :
  groupby_sum raw = Ok g -> In r g -> exists ns, Timestamp r = At ns.
Proof.
  unfold groupby_sum. destruct (is_nil raw); [discriminate|].
  intros H. injection H as <-. intros Hin.
  apply in_map_iff in Hin. destruct Hin as [k [<- _]].
  now exists (fst k).
Qed.

Lemma selected_points (raw g d : list LongRow) (top_n : Z) (t : list string)
    (n : string) :
  groupby_sum raw = Ok g -> filter_top_consumers g top_n = Selected d t ->
  Forall (fun x => exists ns, x = At ns) (map Timestamp (filter (named n) d)).
Proof.
  intros Hg Hsel. destruct (selected_inv _ _ Hsel) as (_ & _ & ->).
  apply Forall_map, Forall_forall. intros r Hr.
  apply filter_In in Hr. destruct Hr as [Hr _].
  apply filter_In in Hr. destruct Hr as [Hr _].
  eapply groupby_sum_points; [exact Hg | exact Hr].
Qed.

(** X11: every line of the figure runs left to right.  In a figure built
    from the surviving tables, the x values of each trace are in
    non-decreasing time order ([NaT] last); those of each process line
    (chart rows 3 and 4) are strictly increasing, and every one of them,
    also the only one of a line with a single point, is a point in time and
    not [NaT]. *)
Theorem series_in_time_order (all_dfs : list DataFrame) (fig : figure) :
  figure_of all_dfs = Ok fig ->
  Forall (fun tr =>
            StronglySorted (fun a b => dt_leb a b = true) (t_x tr)
            /\ ((3 <= t_row tr)%nat ->
                StronglySorted before (t_x tr)
                /\ Forall (fun x => exists ns, x = At ns) (t_x tr))) fig.
Proof.
  unfold figure_of.
  destruct (coerce_and_sort (concat all_dfs)) as [m|e] eqn:Hm; [|discriminate].
  cbn [res_bind]. intros Hfig.
  assert (Hx : StronglySorted (fun a b => dt_leb a b = true)
                 (map row_Timestamp (main_rows m))).
  { unfold coerce_and_sort in Hm.
    destruct (get_column (concat all_dfs) "Timestamp") as [col|]; [|discriminate].
    cbn [res_bind] in Hm. destruct (to_datetime col); [|discriminate].
    injection Hm as <-. cbn [main_rows]. apply StronglySorted_map.
    apply sort_values_sorted.
    - intros a b. apply dt_leb_total.
    - intros a b c. apply dt_leb_trans. }
  destruct (build_figure_ok _ Hfig)
    as (mr & dm & hr & dh & md & mt & hd & ht & c1 & c2 & c3 & c4
        & _ & Gm & _ & Gh & Sm & Sh & _ & _ & _ & _ & ->).
  repeat (apply Forall_cons; [cbn [t_x t_row]; split; [exact Hx | lia]|]).
  apply Forall_app. split; apply process_traces_forall; intros n _; cbn [t_x t_row].
  - assert (Hb : StronglySorted before (map Timestamp (filter (named n) md)))
      by (eapply selected_times; [exact Gm | exact Sm]).
    split; [now apply before_sorted|]. intros _. split; [exact Hb|].
    eapply selected_points; [exact Gm | exact Sm].
  - assert (Hb : StronglySorted before (map Timestamp (filter (named n) hd)))
      by (eapply selected_times; [exact Gh | exact Sh]).
    split; [now apply before_sorted|]. intros _. split; [exact Hb|].
    eapply selected_points; [exact Gh | exact Sh].
Qed.

End TimeOrder.

(** ** Further properties: the traces and the reshaper *)

Section Traces.
Context {Vs : Values} {L : Library}.

Lemma main_column_length (df_main : MainFrame) (c : string) (col : list (cell V)) :
  main_column df_main c = Ok col -> List.length col = List.length (main_rows df_main).
Proof.
  unfold main_column. destruct (mem c (main_columns df_main)); [|discriminate].
  intros H. injection H as <-. now rewrite length_map.
Qed.

Lemma selected_rows (df d : list LongRow) (top_n : Z) (t : list string) (n : string) :
  filter_top_consumers df top_n = Selected d t ->
  In n t -> exists r, In r d /\ ProcessName r = n.
Proof.
  intros Hsel Hn. destruct (selected_inv _ _ Hsel) as (_ & Ht & Hd).
  destruct (ranking_spec df) as (_ & Hnames & _).
  destruct (head_prefix top_n (ranking df)) as [j Hj].
  assert (Hin : In n (map fst (ranking df))).
  { rewrite Ht, Hj, <- firstn_map in Hn. now apply in_firstn in Hn. }
  apply Hnames in Hin. destruct Hin as [r [Hr Hrn]]. exists r.
  split; [|exact Hrn]. rewrite Hd. apply filter_In. split; [exact Hr|].
  apply mem_In. now rewrite Hrn.
Qed.

(** With rows for each selected name, the traces are one per name. *)
Lemma process_traces_selected (row : nat) (label : string) (df d : list LongRow)
    (top_n : Z) (t : list string) :
  filter_top_consumers df top_n = Selected d t ->
  process_traces row label d t
  = map (fun n => {| t_row := row; t_name := label ++ n;
                     t_x := map Timestamp (filter (named n) d);
                     t_y := map (fun r => CNum (Value r)) (filter (named n) d) |}) t.
Proof.
  intros Hsel. unfold process_traces. destruct d as [|r d']; [|reflexivity].
  cbn [is_nil]. destruct t as [|n t']; [reflexivity|].
  assert (Hex : exists r : LongRow, In r [] /\ ProcessName r = n)
    by (eapply selected_rows; [exact Hsel | now left]).
  destruct Hex as [r [[] _]].
Qed.

(** X12: in a figure that was built, every trace has as many x values as y
    values; the four counter traces (two in chart row 1, two in chart row 2)
    have one point per row of the merged table. *)
Theorem traces_points_match (df_main : MainFrame) (fig : figure) :
  build_figure df_main = Ok fig ->
  Forall (fun tr =>
            List.length (t_x tr) = List.length (t_y tr)
            /\ ((t_row tr <= 2)%nat
                -> List.length (t_x tr) = List.length (main_rows df_main))) fig
  /\ List.length (row_traces 1 fig) = 2%nat
  /\ List.length (row_traces 2 fig) = 2%nat.
Proof.
  intros Hfig.
  destruct (build_figure_ok _ Hfig)
    as (mr & dm & hr & dh & md & mt & hd & ht & c1 & c2 & c3 & c4
        & _ & _ & _ & _ & _ & _ & C1 & C2 & C3 & C4 & ->).
  apply main_column_length in C1, C2, C3, C4.
  split; [|split].
  - repeat (apply Forall_cons;
            [cbn [t_x t_y t_row]; rewrite length_map; split; congruence|]).
    apply Forall_app. split; apply process_traces_forall; intros n _;
      cbn [t_x t_y t_row]; rewrite !length_map; split; [reflexivity | lia | reflexivity | lia].
  - unfold row_traces. cbn [app filter t_row Nat.eqb].
    rewrite filter_app, !process_traces_row. reflexivity.
  - unfold row_traces. cbn [app filter t_row Nat.eqb].
    rewrite filter_app, !process_traces_row. reflexivity.
Qed.

(** X13: the legend follows the ranking.  In a figure that was built, chart
    row 3 has one line per name among the first five of the memory ranking,
    in ranking order (largest peak first), named [Mem: ] and the process
    name; chart row 4 likewise for the first three of the handle ranking,
    named [Handles: ] and the name; and each of these lines has at least one
    point. *)
Theorem legend_follows_ranking (df_main : MainFrame) (fig : figure) :
  build_figure df_main = Ok fig ->
  exists df_mem df_handle,
    long_tables df_main = Ok (df_mem, df_handle)
    /\ map t_name (row_traces 3 fig)
       = map (String.append "Mem: ") (firstn 5 (map fst (ranking df_mem)))
    /\ map t_name (row_traces 4 fig)
       = map (String.append "Handles: ") (firstn 3 (map fst (ranking df_handle)))
    /\ Forall (fun tr => t_x tr <> []) (row_traces 3 fig ++ row_traces 4 fig).
Proof.
  intros Hfig.
  destruct (build_figure_inv _ Hfig)
    as (mr & dm & hr & dh & md & mt & hd & ht & E1 & E2 & E3 & E4 & Sm & Sh & R3 & R4).
  exists dm, dh. split.
  { unfold long_tables. rewrite E1. cbn [res_bind]. rewrite E2. cbn [res_bind].
    rewrite E3. cbn [res_bind]. now rewrite E4. }
  rewrite R3, R4.
  rewrite process_traces_selected with (df := dm) (top_n := 5) by exact Sm.
  rewrite process_traces_selected with (df := dh) (top_n := 3) by exact Sh.
  rewrite !map_map. cbn [t_name].
  destruct (selected_inv _ _ Sm) as (_ & Hmt & _).
  destruct (selected_inv _ _ Sh) as (_ & Hht & _).
  split; [|split].
  - rewrite Hmt. change 5 with (Z.of_nat 5). rewrite head_of_nat.
    now rewrite <- firstn_map.
  - rewrite Hht. change 3 with (Z.of_nat 3). rewrite head_of_nat.
    now rewrite <- firstn_map.
  - apply Forall_app. split; apply Forall_map, Forall_forall; intros n Hn;
      cbn [t_x]; intros Hnil.
    + assert (Hex : exists r, In r md /\ ProcessName r = n)
        by (eapply selected_rows; [exact Sm | exact Hn]).
      destruct Hex as [r [Hr Hrn]].
      assert (Hin : In (Timestamp r) (map Timestamp (filter (named n) md)))
        by (apply in_map, in_named; auto).
      rewrite Hnil in Hin. contradiction.
    + assert (Hex : exists r, In r hd /\ ProcessName r = n)
        by (eapply selected_rows; [exact Sh | exact Hn]).
      destruct Hex as [r [Hr Hrn]].
      assert (Hin : In (Timestamp r) (map Timestamp (filter (named n) hd)))
        by (apply in_map, in_named; auto).
      rewrite Hnil in Hin. contradiction.
Qed.

Lemma map_res_ok_inv (A B : Type) (f : A -> res B) (l : list A) (ys : list B) :
  map_res f l = Ok ys -> Forall2 (fun x y => f x = Ok y) l ys.
Proof.
  revert ys. induction l as [|x l IH]; simpl; intros ys H.
  - injection H as <-. constructor.
  - destruct (f x) as [y|] eqn:Hx; simpl in H; [|discriminate].
    destruct (map_res f l) as [ys'|]; simpl in H; [|discriminate].
    injection H as <-. constructor; [exact Hx | now apply IH].
Qed.

Lemma Forall2_in_r (A B : Type) (R : A -> B -> Prop) (P : B -> Prop)
    (l : list A) (ys : list B) :
  Forall2 R l ys -> (forall x y, In x l -> R x y -> P y) -> Forall P ys.
Proof.
  induction 1 as [|x y l ys Hxy HF IH]; intros H; constructor.
  - apply H with x; [now left | exact Hxy].
  - apply IH. intros a b Ha. apply H. now right.
Qed.

Lemma flat_map_length_le (A B : Type) (g : A -> list B) (k : nat) (l : list A) :
  (forall x, (List.length (g x) <= k)%nat) ->
  (List.length (flat_map g l) <= List.length l * k)%nat.
Proof.
  intros H. induction l as [|x l IH]; simpl; [lia|].
  rewrite length_app. specialize (H x). lia.
Qed.

(** X14: the reshaper works row by row.  On a table whose rows are [rows1]
    followed by [rows2] it returns the long rows of [rows1] followed by
    those of [rows2], and it raises exactly when it raises on one of the two
    parts. *)
Theorem reshaper_row_by_row (cols : list string) (rows1 rows2 : list MainRow)
    (prefix_name prefix_val : string) (count : nat) (val_col_name : string) :
  extract_top_data {| main_columns := cols; main_rows := rows1 ++ rows2 |}
                   prefix_name prefix_val count val_col_name
  = let* a := extract_top_data {| main_columns := cols; main_rows := rows1 |}
                               prefix_name prefix_val count val_col_name in
    let* b := extract_top_data {| main_columns := cols; main_rows := rows2 |}
                               prefix_name prefix_val count val_col_name in
    Ok (a ++ b).
Proof.
  rewrite !extract_top_data_spec. unfold present_slots. cbn [main_rows main_columns].
  rewrite flat_map_app. apply map_res_app.
Qed.

(** X15: a returned long table has at most [count] rows per row of the
    merged table, each carrying the timestamp of a row of the merged table
    and a name and value read from one of its slots. *)
Theorem reshaper_bounded (df_main : MainFrame) (prefix_name prefix_val : string)
    (count : nat) (val_col_name : string) (raw : list LongRow) :
  extract_top_data df_main prefix_name prefix_val count val_col_name = Ok raw ->
  (List.length raw <= List.length (main_rows df_main) * count)%nat
  /\ Forall (fun r =>
       exists row i p_name p_val,
         In row (main_rows df_main) /\ (1 <= i <= count)%nat
         /\ slot_pair (main_columns df_main) prefix_name prefix_val val_col_name row i
            = Some (p_name, p_val)
         /\ Timestamp r = row_Timestamp row
         /\ ProcessName r = py_str p_name
         /\ py_float p_val = Ok (Value r)) raw.
Proof.
  rewrite extract_top_data_spec. intros H. apply map_res_ok_inv in H. split.
  - rewrite <- (Forall2_length H). unfold present_slots.
    apply flat_map_length_le. intros row.
    eapply Nat.le_trans; [apply flat_map_length_le with (k := 1%nat)|].
    + intros i. destruct (slot_pair _ _ _ _ row i); simpl; lia.
    + rewrite length_seq. lia.
  - eapply Forall2_in_r; [exact H|]. intros rp r Hin Hrp.
    apply long_row_of_ok in Hrp. destruct Hrp as (Ht & Hn & Hv).
    unfold present_slots in Hin. apply in_flat_map in Hin.
    destruct Hin as [row [Hrow Hin]]. apply in_flat_map in Hin.
    destruct Hin as [i [Hi Hin]]. apply in_seq in Hi.
    destruct (slot_pair (main_columns df_main) prefix_name prefix_val val_col_name row i)
      as [[p_name p_val]|] eqn:Hp; [|contradiction].
    destruct Hin as [<-|[]]. exists row, i, p_name, p_val.
    repeat split; try assumption; lia.
Qed.

End Traces.

(** ** Further properties: success is reported exactly when the file exists *)

Section SuccessLine.
Context {Vs : Values} {L : Library}.

Lemma load_messages_no_success (read : string -> read_result) (fs : list string)
    (f : string) :
  ~ In (CreatedReport f) (load_messages read fs).
Proof.
  unfold load_messages. rewrite in_flat_map. intros [g [_ H]].
  destruct (read g) as [e|df].
  - destruct H as [H|[]]. discriminate H.
  - destruct (has_column "NonPagedPoolMB" df); [contradiction|].
    destruct H as [H|[]]. discriminate H.
Qed.

(** X16: success is reported exactly when the file was written.  From
    effects with no file and no success line, a run only adds lines to the
    console; the line naming the created report is printed if and only if
    [MemoryForensicsReport.html] was written, and then the run returned
    normally. *)
Theorem success_line_iff_written (dir : Directory) (fx : effects) :
  written fx = None ->
  (forall f, ~ In (CreatedReport f) (console fx)) ->
  (exists lines, console (snd (generate_report dir fx)) = console fx ++ lines)
  /\ (In (CreatedReport output_file) (console (snd (generate_report dir fx)))
      <-> exists fig, written (snd (generate_report dir fx)) = Some (output_file, fig))
  /\ ((exists fig, written (snd (generate_report dir fx)) = Some (output_file, fig))
      -> fst (generate_report dir fx) = Ok tt).
Proof.
  intros Hw Hc. rewrite generate_report_spec.
  destruct (glob dir) as [|g gs].
  - cbn [fst snd printed console written]. split; [eexists; reflexivity|]. split.
    + split.
      * intros H. apply in_app_or in H. destruct H as [H|[H|[]]];
          [now apply Hc in H | discriminate H].
      * intros [fig H]. congruence.
    + reflexivity.
  - cbv zeta. set (fs := isort String.leb (g :: gs)).
    assert (Hpre : ~ In (CreatedReport output_file)
                     (console fx ++ FoundLogFiles fs :: load_messages (read_csv dir) fs)).
    { intros H. apply in_app_or in H. destruct H as [H|[H|H]].
      - now apply Hc in H.
      - discriminate H.
      - now apply load_messages_no_success in H. }
    destruct (valid_tables (read_csv dir) fs) as [|d ds].
    + cbn [fst snd printed console written].
      split; [eexists; rewrite <- app_assoc; reflexivity|]. split; [|reflexivity].
      split.
      * intros H. apply in_app_or in H. destruct H as [H|[H|[]]];
          [contradiction | discriminate H].
      * intros [fig H]. congruence.
    + destruct (figure_of (d :: ds)) as [fig|e]; cbn [fst snd printed console written].
      * split; [eexists; rewrite <- app_assoc; reflexivity|]. split; [|reflexivity].
        split; [intros _; now exists fig|].
        intros _. apply in_or_app. right. now left.
      * split; [eexists; reflexivity|]. split.
        -- split; [intros H; contradiction | intros [fig H]; congruence].
        -- intros [fig H]. congruence.
Qed.

End SuccessLine.

(** ** The further properties on the concrete directories *)

Lemma run_independent_of_glob_order_witness :
  generate_report Ex.dir_good no_effects
  = generate_report Ex.dir_good_reversed no_effects.
Proof.
  apply run_independent_of_glob_order.
  - apply Permutation_rev.
  - intros f. reflexivity.
Defined.

Lemma concat_keeps_cells_witness :
  exists merged rest,
    data (concat [Ex.legacy; Ex.day1]) = merged :: rest
    /\ List.length rest = 3%nat
    /\ List.length merged = 13%nat
    /\ cell_at (columns (concat [Ex.legacy; Ex.day1])) merged "UsedMB" = Ex.num 7000
    /\ cell_at (columns (concat [Ex.legacy; Ex.day1])) merged "TotalMB" = CNaN.
Proof.
  destruct (@concat_keeps_cells QValues [Ex.legacy; Ex.day1]) as (_ & _ & H).
  destruct (data (concat [Ex.legacy; Ex.day1])) as [|merged rest] eqn:E;
    [vm_compute in E; discriminate E|].
  exists merged, rest. split; [reflexivity|].
  inversion H as [|m src ms srcs [Hlen Hcell] Hrest]. subst.
  split; [|split; [|split]].
  - apply Forall2_length in Hrest. rewrite Hrest. reflexivity.
  - rewrite Hlen. vm_compute. reflexivity.
  - rewrite Hcell. reflexivity.
  - rewrite Hcell. reflexivity.
Defined.

Lemma sorting_keeps_rows_witness :
  main_columns (merged_of [Ex.day1; Ex.day2]) = Ex.header
  /\ Permutation (map row_cells (main_rows (merged_of [Ex.day1; Ex.day2])))
                 (data Ex.day1 ++ data Ex.day2).
Proof.
  destruct (@sorting_keeps_rows QValues RefLib (concat [Ex.day1; Ex.day2])
              (merged_of [Ex.day1; Ex.day2])) as (Hc & Hp & _).
  - vm_compute. reflexivity.
  - split.
    + rewrite Hc. vm_compute. reflexivity.
    + eapply Permutation_trans; [exact Hp|].
      vm_compute. apply Permutation_refl.
Defined.

Lemma missing_counter_column_witness :
  build_figure Ex.twice_no_used = Raise (KeyError "UsedMB").
Proof.
  destruct (selections Ex.twice_no_used) as [s|e] eqn:E.
  - exact (missing_counter_column_raises Ex.twice_no_used E).
  - vm_compute in E. discriminate E.
Defined.

Lemma marker_column_witness :
  In "NonPagedPoolMB" (main_columns (merged_of [Ex.day1; Ex.day2]))
  /\ exists col,
       main_column (merged_of [Ex.day1; Ex.day2]) "NonPagedPoolMB" = Ok col
       /\ List.length col = 6%nat.
Proof.
  destruct (@marker_column_always_readable QValues RefLib Ex.dir_good
              (merged_of [Ex.day1; Ex.day2])) as (Hin & (col & Hcol & Hlen) & _).
  - vm_compute. reflexivity.
  - split; [exact Hin|]. exists col. split; [exact Hcol|].
    rewrite Hlen. vm_compute. reflexivity.
Defined.

Lemma selection_dominates_witness :
  vle (inject_Z 700) (inject_Z 950) = true.
Proof.
  apply (@selection_dominates QValues RefLib Ex.usage
           (filter (fun r => mem (ProcessName r) ["code.exe"; "chrome.exe"]) Ex.usage)
           2 ["code.exe"; "chrome.exe"] "chrome.exe" "teams.exe"
           (inject_Z 950) (inject_Z 700)).
  - vm_compute. reflexivity.
  - simpl. tauto.
  - simpl. intros [H|[H|[]]]; discriminate H.
  - vm_compute. reflexivity.
  - vm_compute. reflexivity.
Defined.

Lemma selection_size_witness :
  Z.of_nat (List.length ["code.exe"; "chrome.exe"]) = Z.max 0 (3 + -1)
  /\ NoDup ["code.exe"; "chrome.exe"].
Proof.
  destruct (@selection_size QValues RefLib Ex.usage
              (filter (fun r => mem (ProcessName r) ["code.exe"; "chrome.exe"]) Ex.usage)
              (-1) ["code.exe"; "chrome.exe"])
    as (Hlen & Hnd & _).
  - vm_compute. reflexivity.
  - split; [|exact Hnd]. rewrite Hlen. vm_compute. reflexivity.
Defined.

Lemma series_in_time_order_witness :
  Forall (fun tr =>
            StronglySorted (fun a b => dt_leb a b = true) (t_x tr)
            /\ ((3 <= t_row tr)%nat ->
                StronglySorted before (t_x tr)
                /\ Forall (fun x => exists ns, x = At ns) (t_x tr)))
         (figure_written Ex.dir_good).
Proof.
  apply (@series_in_time_order QValues RefLib [Ex.day1; Ex.day2]).
  vm_compute. reflexivity.
Defined.

Lemma traces_points_match_witness :
  Forall (fun tr =>
            List.length (t_x tr) = List.length (t_y tr)
            /\ ((t_row tr <= 2)%nat -> List.length (t_x tr) = 1%nat))
         (figure_built Ex.twice)
  /\ List.length (row_traces 1 (figure_built Ex.twice)) = 2%nat
  /\ List.length (row_traces 2 (figure_built Ex.twice)) = 2%nat.
Proof.
  apply (@traces_points_match QValues RefLib Ex.twice). vm_compute. reflexivity.
Defined.

Lemma legend_follows_ranking_witness :
  map t_name (row_traces 3 (figure_built (merged_of [Ex.day1; Ex.day2])))
  = [ "Mem: java.exe"; "Mem: chrome.exe"; "Mem: firefox.exe"; "Mem: teams.exe";
      "Mem: code.exe" ].
Proof.
  destruct (@legend_follows_ranking QValues RefLib (merged_of [Ex.day1; Ex.day2])
              (figure_built (merged_of [Ex.day1; Ex.day2])))
    as (dm & dh & Ht & H3 & _).
  - vm_compute. reflexivity.
  - rewrite H3. vm_compute in Ht. injection Ht as <- <-. vm_compute. reflexivity.
Defined.

Lemma reshaper_bounded_witness :
  (List.length [ Ex.obs 1709287200000000000 "chrome.exe" 10;
                 Ex.obs 1709287200000000000 "chrome.exe" 15 ]
   <= List.length (main_rows Ex.twice) * 10)%nat.
Proof.
  apply (@reshaper_bounded QValues RefLib Ex.twice "TopMem" "TopMem" 10 "MB").
  vm_compute. reflexivity.
Defined.

Lemma success_line_witness :
  In (CreatedReport output_file) (console (snd (generate_report Ex.dir_good no_effects)))
  /\ fst (generate_report Ex.dir_good no_effects) = Ok tt.
Proof.
  destruct (success_line_iff_written Ex.dir_good no_effects) as (_ & Hiff & Hok).
  - reflexivity.
  - intros f [].
  - assert (Hw : exists fig,
               written (snd (generate_report Ex.dir_good no_effects))
               = Some (output_file, fig))
      by (exists (figure_written Ex.dir_good); vm_compute; reflexivity).
    split; [now apply Hiff | now apply Hok].
Defined.
